(** * app.py: the question/answer splitter and the summarization client

    A shallow embedding of [src/app.py].  A Python [str] is the list of its
    Unicode code points; the Azure SDK, python-docx and Streamlit are the
    program's environment and appear as interfaces whose behaviour the
    theorems quantify over. *)

From Stdlib Require Import String Ascii List NArith Bool Arith Lia.
Import ListNotations.

Set Implicit Arguments.

(** ** Python strings *)

Module PyStr.

(** A code point, [0 .. 0x10FFFF]. *)
Definition char := N.

Definition str := list char.

(** A source literal. All literals of [app.py]'s functions are ASCII. *)
Definition lit (s : string) : str :=
  List.map N_of_ascii (list_ascii_of_string s).

Fixpoint eqb (a b : str) : bool :=
  match a, b with
  | [], [] => true
  | x :: a', y :: b' => N.eqb x y && eqb a' b'
  | _, _ => false
  end.

(** [bool(s)]: a string is truthy when it is not empty. *)
Definition truthy (s : str) : bool :=
  match s with [] => false | _ :: _ => true end.

(** [s.startswith(pre)] *)
Fixpoint startswith (s pre : str) {struct pre} : bool :=
  match pre, s with
  | [], _ => true
  | p :: pre', c :: s' => N.eqb c p && startswith s' pre'
  | _ :: _, [] => false
  end.

(** [s.endswith(suf)]: the tail of [s] of [suf]'s length is compared. *)
Definition endswith (s suf : str) : bool :=
  (length suf <=? length s) && eqb (skipn (length s - length suf) s) suf.

(** [sub in s]: [sub] occurs at some offset of [s]. *)
Fixpoint contains (sub s : str) : bool :=
  startswith s sub ||
  match s with
  | [] => false
  | _ :: s' => contains sub s'
  end.

(** [c.isspace()], CPython's [Py_UNICODE_ISSPACE]: the ASCII table
    [_Py_ascii_whitespace] and, above it, [_PyUnicode_IsWhitespace]. *)
Definition isspace (c : char) : bool :=
  ((9 <=? c) && (c <=? 13) || (28 <=? c) && (c <=? 32)
   || (c =? 133) || (c =? 160) || (c =? 5760)
   || (8192 <=? c) && (c <=? 8202)
   || (c =? 8232) || (c =? 8233) || (c =? 8239) || (c =? 8287)
   || (c =? 12288))%N.

Fixpoint lstrip (s : str) : str :=
  match s with
  | c :: s' => if isspace c then lstrip s' else s
  | [] => []
  end.

Definition rstrip (s : str) : str := rev (lstrip (rev s)).

(** [s.strip()] *)
Definition strip (s : str) : str := rstrip (lstrip s).

(** [sep.join(xs)] *)
Fixpoint join (sep : str) (xs : list str) : str :=
  match xs with
  | [] => []
  | [x] => x
  | x :: xs' => x ++ sep ++ join sep xs'
  end.

(** [s.split(sep)] for a separator of one character [c]; the result
    always has at least one field. *)
Fixpoint split (c : char) (s : str) : list str :=
  match s with
  | [] => [[]]
  | x :: s' =>
      if N.eqb x c then [] :: split c s'
      else match split c s' with
           | field :: fields => (x :: field) :: fields
           | [] => [[x]]
           end
  end.

Definition newline : char := 10%N.

End PyStr.

Import PyStr.

(** [bool(xs)] for a list. *)
Definition truthy_list {A} (xs : list A) : bool :=
  match xs with [] => false | _ :: _ => true end.

(** ** Effects

    A run of the program yields a value or raises, and leaves a log of what
    it did to its environment: the calls into the Azure SDK, the widgets it
    rendered and the reading of the uploaded document. Exceptions are the
    instances of [Exception], the ones an [except Exception] clause
    catches. *)

Record PyException := { exn_str : str }.   (* [str(e)] *)

Inductive result (A : Type) : Type :=
| Ok (a : A)
| Raise (e : PyException).

Arguments Ok {A} a.
Arguments Raise {A} e.

Record AbstractiveSummary := { text : str }.

Record TextAnalyticsError := { message : str }.

(** One entry of the service's response: [is_error] is [False] on an
    [AbstractiveSummaryResult] and [True] on a [DocumentError]. *)
Inductive document_result :=
| AbstractiveSummaryResult (summaries : list AbstractiveSummary)
| DocumentError (error : TextAnalyticsError).

Definition is_error (doc : document_result) : bool :=
  match doc with
  | AbstractiveSummaryResult _ => false
  | DocumentError _ => true
  end.

(** The iterable [poller.result()] returns: fetching the next entry gives
    an entry, the end of the response, or an exception. *)
Inductive paged :=
| PagedEnd
| PagedItem (doc : document_result) (rest : paged)
| PagedRaise (e : PyException).

(** The calls into the SDK; [poller.result()] is logged with the response
    it gave. *)
Inductive sdk_call :=
| CallAzureKeyCredential (key : str)
| CallTextAnalyticsClient (endpoint : str)
| CallBeginAbstractSummary (documents : list str)
| CallPollerResult (response : result paged).

Inductive widget :=
| Button (label : str)
| Spinner (text : str)
| Success (body : str)
| Info (body : str)
| Warning (body : str)
| Error (body : str)
| Columns (n : nat)
| Subheader (body : str)
| TextArea (label value : str)
| DownloadButton (label data file_name : str)
| Divider.

Inductive effect :=
| Sdk (c : sdk_call)
| Render (w : widget)
| ReadDocument.            (* [docx.Document(file)] read the upload *)

Definition M (A : Type) : Type := result A * list effect.

Definition ret {A} (a : A) : M A := (Ok a, []).

Definition bind {A B} (m : M A) (k : A -> M B) : M B :=
  match m with
  | (Ok a, log) => let (r, log') := k a in (r, log ++ log')
  | (Raise e, log) => (Raise e, log)
  end.

(** [try: body except Exception as e: handler e] *)
Definition try_except {A} (body : M A) (handler : PyException -> M A) : M A :=
  match body with
  | (Ok a, log) => (Ok a, log)
  | (Raise e, log) => let (r, log') := handler e in (r, log ++ log')
  end.

(** A call into the SDK: it is logged, and gives what the SDK gave. *)
Definition call {A} (c : sdk_call) (r : result A) : M A := (r, [Sdk c]).

Definition render (w : widget) : M unit := (Ok tt, [Render w]).

Declare Scope py_scope.
Delimit Scope py_scope with py.
Notation "x <- m ;; k" := (bind m (fun x => k))
  (at level 61, m at next level, right associativity) : py_scope.
Notation "m ;;; k" := (bind m (fun _ => k))
  (at level 61, right associativity) : py_scope.
Local Open Scope py_scope.

(** ** The environment: azure-ai-textanalytics and python-docx *)

Fixpoint paged_app (docs : list document_result) (rest : paged) : paged :=
  match docs with
  | [] => rest
  | doc :: docs' => PagedItem doc (paged_app docs' rest)
  end.

Definition paged_of_list (docs : list document_result) : paged :=
  paged_app docs PagedEnd.

Class TextAnalyticsSdk := {
  Credential : Type;
  Client : Type;
  Poller : Type;
  AzureKeyCredential : str -> result Credential;
  TextAnalyticsClient : str -> Credential -> result Client;
  begin_abstract_summary : Client -> list str -> result Poller;
  poller_result : Poller -> result paged
}.

Class Docx := {
  UploadedFile : Type;
  (** [docx.Document(file).paragraphs], each as its [.text] *)
  Document : UploadedFile -> result (list str)
}.

(** The two sidebar inputs, read by the functions as globals. *)
Record Sidebar := {
  AZURE_KEY : str;
  AZURE_ENDPOINT : str
}.

(** ** The program *)

Section Program.

Context {sdk : TextAnalyticsSdk} {docx : Docx}.
Variable sidebar : Sidebar.

Definition get_language_client : M Client :=
  credential <- call (CallAzureKeyCredential (AZURE_KEY sidebar))
                     (AzureKeyCredential (AZURE_KEY sidebar)) ;;
  call (CallTextAnalyticsClient (AZURE_ENDPOINT sidebar))
       (TextAnalyticsClient (AZURE_ENDPOINT sidebar) credential).

Definition read_docx (file : UploadedFile) : M (list str) :=
  paragraphs <- (Document file, [ReadDocument]) ;;
  ret (map strip (filter (fun para => truthy (strip para)) paragraphs)).

(** The condition of the [if] in [split_qa]'s loop. *)
Definition is_question (line : str) : bool :=
  endswith line (lit "?") || contains (lit "User A:") line
  || contains (lit "Question:") line.

(** The loop of [split_qa]: the lists [questions] and [answers] after
    the lines have been visited. *)
Definition split_qa_loop (lines : list str) (questions answers : list str)
  : list str * list str :=
  fold_left
    (fun '(questions, answers) line =>
       if is_question line then (questions ++ [line], answers)
       else (questions, answers ++ [line]))
    lines (questions, answers).

Definition split_qa_lists (lines : list str) : list str * list str :=
  split_qa_loop lines [] [].

Definition split_qa (lines : list str) : str * str :=
  let (questions, answers) := split_qa_lists lines in
  (join [newline] questions, join [newline] answers).

(** The [for doc in result] loop of [summarize_with_azure]; the [match] on
    the entry is the test [if not doc.is_error]. The loop ends with [inl s]
    when its body returned [s] from the function, and with
    [inr summary_out] when the response was exhausted. *)
Fixpoint summarize_loop (result : paged) (summary_out : list str)
  : M (str + list str) :=
  match result with
  | PagedEnd => ret (inr summary_out)
  | PagedRaise e => (Raise e, [])
  | PagedItem doc rest =>
      match doc with
      | AbstractiveSummaryResult summaries =>
          summarize_loop rest
            (fold_left (fun out summary => out ++ [text summary])
                       summaries summary_out)
      | DocumentError error =>
          ret (inl (lit "Azure Service Error: " ++ message error))
      end
  end.

Definition summarize_with_azure (text_to_summarize : str) : M str :=
  if negb (truthy (strip text_to_summarize)) then
    ret (lit "No answer text provided to summarize.")
  else
    client <- get_language_client ;;
    try_except
      (poller <- call (CallBeginAbstractSummary [text_to_summarize])
                      (begin_abstract_summary client [text_to_summarize]) ;;
       result <- call (CallPollerResult (poller_result poller))
                      (poller_result poller) ;;
       done <- summarize_loop result [] ;;
       match done with
       | inl returned => ret returned
       | inr summary_out =>
           ret (if truthy_list summary_out
                then join (lit " ") summary_out
                else lit "AI could not generate a summary.")
       end)
      (fun e => ret (lit "Logic Error: " ++ exn_str e)).

(** What the user did in this run of the script. *)
Record Session := {
  uploaded_file : option UploadedFile;
  analyze_clicked : bool          (* what [st.button] returns *)
}.

Definition st_button (session : Session) (label : str) : M bool :=
  render (Button label) ;;; ret (analyze_clicked session).

(** The statements of the [try] block of the script. *)
Definition analyze (lines : list str) : M unit :=
  let (questions_txt, answers_txt) := split_qa lines in
  summary_txt <- summarize_with_azure answers_txt ;;
  render (Success (lit " Analysis Complete!")) ;;;
  render (Columns 2) ;;;
  render (Subheader (lit " Extracted Questions")) ;;;
  render (TextArea (lit "Questions List") questions_txt) ;;;
  render (DownloadButton (lit "Download Questions (.txt)") questions_txt
                         (lit "questions.txt")) ;;;
  render (Subheader (lit " Extracted Answers")) ;;;
  render (TextArea (lit "Answers List") answers_txt) ;;;
  render (DownloadButton (lit "Download Answers (.txt)") answers_txt
                         (lit "answers.txt")) ;;;
  render Divider ;;;
  render (Subheader (lit " AI-Generated Summary of Answers")) ;;;
  render (Info summary_txt) ;;;
  render (DownloadButton (lit "Download Summary (.txt)") summary_txt
                         (lit "summary_final.txt")).

(** The script from [if uploaded_file and AZURE_KEY and AZURE_ENDPOINT]
    on; the title and the uploader above it are drawn in every run. *)
Definition main (session : Session) : M unit :=
  match uploaded_file session,
        truthy (AZURE_KEY sidebar) && truthy (AZURE_ENDPOINT sidebar) with
  | Some file, true =>
      lines <- read_docx file ;;
      clicked <- st_button session (lit "Analyze & Summarize Answers") ;;
      if clicked then
        if negb (truthy_list lines) then
          render (Error (lit "The uploaded file appears to be empty."))
        else
          render (Spinner (lit "Azure AI is analyzing your conversation...")) ;;;
          try_except
            (analyze lines)
            (fun e => render (Error (lit "Critical Error: " ++ exn_str e)))
      else ret tt
  | _, _ =>
      if negb (truthy (AZURE_KEY sidebar) && truthy (AZURE_ENDPOINT sidebar)) then
        render (Warning (lit "Please enter your Azure Language Key and Endpoint in the sidebar."))
      else
        render (Info (lit " Please upload a .docx file to get started."))
  end.

End Program.

Arguments summarize_with_azure {sdk} sidebar text_to_summarize.
Arguments main {sdk docx} sidebar session.

(** ** Test doubles *)

(** A service that fails or succeeds to build its client as told, and
    answers every request with one canned response. *)
Definition canned_sdk (construct : result unit) (response : result paged)
  : TextAnalyticsSdk :=
  {| Credential := str;
     Client := unit;
     Poller := unit;
     AzureKeyCredential := fun key => Ok key;
     TextAnalyticsClient := fun _ _ => construct;
     begin_abstract_summary := fun _ _ => Ok tt;
     poller_result := fun _ => response |}.

(** A document is given by its paragraphs; it always parses. *)
Definition plain_docx : Docx :=
  {| UploadedFile := list str;
     Document := fun paragraphs => Ok paragraphs |}.

Definition demo_sidebar : Sidebar :=
  {| AZURE_KEY := lit "0123456789abcdef";
     AZURE_ENDPOINT := lit "https://demo.cognitiveservices.azure.com/" |}.

Definition other_sidebar : Sidebar :=
  {| AZURE_KEY := lit "fedcba9876543210";
     AZURE_ENDPOINT := lit "https://other.cognitiveservices.azure.com/" |}.

Definition client_failure : PyException :=
  {| exn_str := lit "No transport available to build the client." |}.

(** Space, newline, tab, no-break space. *)
Definition blank_text : str := [32; 10; 9; 160]%N.

Definition rate_limited : paged :=
  paged_of_list [DocumentError {| message := lit "rate limited" |}].

Definition two_fragments : list document_result :=
  [AbstractiveSummaryResult [{| text := lit "It works." |}; {| text := lit "It is fine." |}]].

(** The advisory messages of the script. *)
Definition missing_credentials_msg : str :=
  lit "Please enter your Azure Language Key and Endpoint in the sidebar.".

Definition missing_document_msg : str :=
  lit " Please upload a .docx file to get started.".

Definition spinner_msg : str := lit "Azure AI is analyzing your conversation...".

Definition demo_document : list str :=
  [lit "Is this correct?"; lit "  It works fine. "; lit "   "; lit "User A: hello"].

Definition demo_session : @Session plain_docx :=
  @Build_Session plain_docx (Some (demo_document : @UploadedFile plain_docx)) true.

(** The texts of the summaries of a response's entries, in order. *)
Definition fragments (docs : list document_result) : list str :=
  flat_map (fun doc => match doc with
                       | AbstractiveSummaryResult summaries => map text summaries
                       | DocumentError _ => []
                       end) docs.

(** ** Vocabulary of the specification *)

(** The classification rule in the specification's words: the line ends
    with [?], or holds [User A:], or holds [Question:]. *)
Definition EndsWith (line suffix : str) : Prop :=
  exists front, line = front ++ suffix.

Definition HasSubstring (sub line : str) : Prop :=
  exists front back, line = front ++ sub ++ back.

Definition QuestionRule (line : str) : Prop :=
  EndsWith line (lit "?")
  \/ HasSubstring (lit "User A:") line
  \/ HasSubstring (lit "Question:") line.

(** The classification of a line sequence in the specification's words:
    line by line, a line that meets the rule is a question and any other
    line an answer, each kept as it is and in its place. *)
Inductive Classified : list str -> list str -> list str -> Prop :=
| Classified_nil : Classified [] [] []
| Classified_question line lines questions answers :
    QuestionRule line -> Classified lines questions answers ->
    Classified (line :: lines) (line :: questions) answers
| Classified_answer line lines questions answers :
    ~ QuestionRule line -> Classified lines questions answers ->
    Classified (line :: lines) questions (line :: answers).

(** [Interleave xs ys zs]: [zs] is [xs] and [ys] shuffled together, each
    entry of [zs] taken from exactly one of them and each of the two kept in
    its order. *)
Inductive Interleave {A : Type} : list A -> list A -> list A -> Prop :=
| Interleave_nil : Interleave [] [] []
| Interleave_left x xs ys zs :
    Interleave xs ys zs -> Interleave (x :: xs) ys (x :: zs)
| Interleave_right y xs ys zs :
    Interleave xs ys zs -> Interleave xs (y :: ys) (y :: zs).

(** ["\n" not in line], for every line. *)
Definition no_newline (lines : list str) : bool :=
  forallb (fun line => negb (contains [newline] line)) lines.

(** The lines that pass, and that fail, the test of [split_qa]'s loop. *)
Definition questions_of (lines : list str) : list str := filter is_question lines.

Definition answers_of (lines : list str) : list str :=
  filter (fun line => negb (is_question line)) lines.

(** Not in the source: reading a pane's text back into lines, that is,
    [pane.split("\n")] when the pane is not empty and no line otherwise. *)
Definition lines_of (pane : str) : list str :=
  if truthy pane then split newline pane else [].

Definition str_eq_dec : forall a b : str, {a = b} + {a <> b} :=
  list_eq_dec N.eq_dec.

(** The lines [read_docx] makes of a document's paragraphs. *)
Definition lines_of_paragraphs (paragraphs : list str) : list str :=
  map strip (filter (fun para => truthy (strip para)) paragraphs).

(** A line as [read_docx] gives them: not empty, and with a character
    that is no whitespace at either end. *)
Definition trimmed_line (line : str) : Prop :=
  (exists c rest, line = c :: rest /\ isspace c = false)
  /\ (exists front d, line = front ++ [d] /\ isspace d = false).

(** What the script draws once [summarize_with_azure] has returned. *)
Definition results_display (questions_txt answers_txt summary_txt : str)
  : list effect :=
  [Render (Success (lit " Analysis Complete!"));
   Render (Columns 2);
   Render (Subheader (lit " Extracted Questions"));
   Render (TextArea (lit "Questions List") questions_txt);
   Render (DownloadButton (lit "Download Questions (.txt)") questions_txt
                          (lit "questions.txt"));
   Render (Subheader (lit " Extracted Answers"));
   Render (TextArea (lit "Answers List") answers_txt);
   Render (DownloadButton (lit "Download Answers (.txt)") answers_txt
                          (lit "answers.txt"));
   Render Divider;
   Render (Subheader (lit " AI-Generated Summary of Answers"));
   Render (Info summary_txt);
   Render (DownloadButton (lit "Download Summary (.txt)") summary_txt
                          (lit "summary_final.txt"))].

(** What the script has done when the analysis starts. *)
Definition analysis_prologue : list effect :=
  [ReadDocument;
   Render (Button (lit "Analyze & Summarize Answers"));
   Render (Spinner spinner_msg)].

Definition blank_document : list str := [lit "   "; []; [9; 10]%N].

Definition clean_document : list str :=
  [lit "Is this correct?"; lit "It works fine."; lit "User A: hello"].

Definition questions_only_document : list str :=
  [lit "Is this correct?"; lit "User A: hello"].

Definition session_of (paragraphs : list str) (clicked : bool)
  : @Session plain_docx :=
  @Build_Session plain_docx (Some (paragraphs : @UploadedFile plain_docx)) clicked.

(** A document that does not parse. *)
Definition broken_docx (e : PyException) : Docx :=
  {| UploadedFile := unit;
     Document := fun _ => Raise e |}.

Definition parse_error : PyException :=
  {| exn_str := lit "File is not a zip file" |}.

Definition timeout_error : PyException :=
  {| exn_str := lit "Operation timed out" |}.

(** The string [summarize_with_azure] makes of an exception it caught. *)
Definition logic_error (e : PyException) : str := lit "Logic Error: " ++ exn_str e.

(** The four calls of a run of [summarize_with_azure] that gets as far as
    polling, in order. *)
Definition sdk_calls (sidebar : Sidebar) (text_to_summarize : str)
           (response : result paged) : list effect :=
  [Sdk (CallAzureKeyCredential (AZURE_KEY sidebar));
   Sdk (CallTextAnalyticsClient (AZURE_ENDPOINT sidebar));
   Sdk (CallBeginAbstractSummary [text_to_summarize]);
   Sdk (CallPollerResult response)].

(** A run in which the analysis was asked for: both credentials are
    there, a document was uploaded and parses into [paragraphs], and the
    button was clicked. *)
Definition analysis_requested {docx : Docx} (sidebar : Sidebar)
           (session : Session) (file : UploadedFile) (paragraphs : list str)
  : Prop :=
  AZURE_KEY sidebar <> []
  /\ AZURE_ENDPOINT sidebar <> []
  /\ uploaded_file session = Some file
  /\ Document file = Ok paragraphs
  /\ analyze_clicked session = true.


(** A service that builds its client and refuses every request. *)
Definition refusing_sdk (e : PyException) : TextAnalyticsSdk :=
  {| Credential := str;
     Client := unit;
     Poller := unit;
     AzureKeyCredential := fun key => Ok key;
     TextAnalyticsClient := fun _ _ => Ok tt;
     begin_abstract_summary := fun _ _ => Raise e;
     poller_result := fun _ => Ok PagedEnd |}.

Definition client_calls (sidebar : Sidebar) : list effect :=
  [Sdk (CallAzureKeyCredential (AZURE_KEY sidebar));
   Sdk (CallTextAnalyticsClient (AZURE_ENDPOINT sidebar))].

(** ** Facts about Python strings *)

Section StrFacts.

Lemma eqb_eq (a b : str) : eqb a b = true <-> a = b.
Proof.
  revert b; induction a as [|x a IH]; intros [|y b]; simpl;
    try (split; [discriminate | discriminate]); [tauto|].
  rewrite andb_true_iff, N.eqb_eq, IH.
  split; [intros [-> ->]; reflexivity | intros H; injection H; auto].
Qed.

Lemma startswith_spec (s pre : str) :
  startswith s pre = true <-> exists rest, s = pre ++ rest.
Proof.
  revert s; induction pre as [|p pre IH]; intros s; simpl.
  - split; [intros _; exists s; reflexivity | reflexivity].
  - destruct s as [|c s].
    + split; [discriminate | intros [rest H]; discriminate].
    + rewrite andb_true_iff, N.eqb_eq, IH. split.
      * intros [-> [rest ->]]. exists rest; reflexivity.
      * intros [rest H]. injection H as -> ->. eauto.
Qed.

Lemma endswith_spec (s suf : str) :
  endswith s suf = true <-> exists front, s = front ++ suf.
Proof.
  unfold endswith. rewrite andb_true_iff, Nat.leb_le, eqb_eq. split.
  - intros [_ H]. exists (firstn (length s - length suf) s).
    rewrite <- H at 2. symmetry; apply firstn_skipn.
  - intros [front ->]. rewrite length_app. split; [lia|].
    replace (length front + length suf - length suf) with (length front + 0) by lia.
    rewrite skipn_app, Nat.add_0_r, skipn_all.
    replace (length front - length front) with 0 by lia. reflexivity.
Qed.

Lemma contains_spec (sub s : str) :
  contains sub s = true <-> exists front back, s = front ++ sub ++ back.
Proof.
  induction s as [|c s IH].
  - simpl. rewrite orb_false_r, startswith_spec. split.
    + intros [rest H]. exists [], rest. exact H.
    + intros [[|x front] [back H]]; [eauto | discriminate].
  - cbn [contains]. rewrite orb_true_iff, startswith_spec, IH. split.
    + intros [[rest H] | [front [back H]]].
      * exists [], rest. exact H.
      * exists (c :: front), back. rewrite H. reflexivity.
    + intros [[|x front] [back H]].
      * left. exists back. exact H.
      * right. injection H as _ H. eauto.
Qed.

Lemma lstrip_blank (s : str) : lstrip s = [] <-> forallb isspace s = true.
Proof.
  induction s as [|c s IH]; simpl; [tauto|].
  destruct (isspace c); simpl; [exact IH|].
  split; discriminate.
Qed.

Lemma strip_blank (s : str) : strip s = [] <-> forallb isspace s = true.
Proof.
  unfold strip, rstrip. split.
  - intros H. apply (f_equal (@rev char)) in H. rewrite rev_involutive in H.
    simpl in H. apply lstrip_blank in H.
    rewrite forallb_forall in H.
    assert (Hl : lstrip s = [] \/ lstrip s <> []) by (destruct (lstrip s); [left|right]; congruence).
    destruct Hl as [Hl|Hl]; [apply lstrip_blank, Hl|].
    exfalso. clear -H Hl.
    induction s as [|c s IH]; simpl in *; [congruence|].
    destruct (isspace c) eqn:E; [auto|].
    specialize (H c). rewrite <- in_rev in H.
    rewrite H in E; [discriminate | left; reflexivity].
  - intros H. apply lstrip_blank in H. rewrite H. reflexivity.
Qed.

Lemma truthy_strip (s : str) :
  truthy (strip s) = negb (forallb isspace s).
Proof.
  destruct (forallb isspace s) eqn:E.
  - apply strip_blank in E. rewrite E. reflexivity.
  - destruct (strip s) eqn:S; [|reflexivity].
    apply strip_blank in S. congruence.
Qed.

Lemma join_cons sep (x : str) (xs : list str) :
  join sep (x :: xs) = x ++ flat_map (fun y => sep ++ y) xs.
Proof.
  revert x; induction xs as [|y xs IH]; intros x.
  - simpl. rewrite app_nil_r. reflexivity.
  - change (join sep (x :: y :: xs)) with (x ++ sep ++ join sep (y :: xs)).
    rewrite IH. simpl. rewrite <- app_assoc. reflexivity.
Qed.

Lemma split_no_sep c (s : str) :
  existsb (N.eqb c) s = false -> forall rest, split c (s ++ c :: rest) = s :: split c rest.
Proof.
  induction s as [|x s IH]; simpl; intros H rest.
  - rewrite N.eqb_refl. reflexivity.
  - apply orb_false_iff in H as [Hx Hs]. rewrite N.eqb_sym in Hx.
    rewrite Hx, IH by exact Hs. reflexivity.
Qed.

Lemma split_single c (s : str) :
  existsb (N.eqb c) s = false -> split c s = [s].
Proof.
  induction s as [|x s IH]; simpl; intros H; [reflexivity|].
  apply orb_false_iff in H as [Hx Hs]. rewrite N.eqb_sym in Hx.
  rewrite Hx, IH by exact Hs. reflexivity.
Qed.

(** Splitting a join gives the fields back, when no field holds the
    separator and there is at least one field. *)
Lemma split_join c (x : str) (xs : list str) :
  forallb (fun l => negb (existsb (N.eqb c) l)) (x :: xs) = true ->
  split c (join [c] (x :: xs)) = x :: xs.
Proof.
  revert x; induction xs as [|y xs IH]; intros x H.
  - simpl in *. rewrite andb_true_r, negb_true_iff in H.
    apply split_single, H.
  - change (join [c] (x :: y :: xs)) with (x ++ c :: join [c] (y :: xs)).
    cbn [forallb] in H. apply andb_true_iff in H as [Hx H].
    rewrite negb_true_iff in Hx.
    rewrite split_no_sep by exact Hx. rewrite IH by exact H. reflexivity.
Qed.

End StrFacts.

(** ** The classifier *)

Section Classifier.

Lemma is_question_rule (line : str) : is_question line = true <-> QuestionRule line.
Proof.
  unfold is_question, QuestionRule, EndsWith, HasSubstring.
  rewrite !orb_true_iff, endswith_spec, !contains_spec. tauto.
Qed.

Lemma is_question_rule_false (line : str) :
  is_question line = false <-> ~ QuestionRule line.
Proof.
  rewrite <- is_question_rule. destruct (is_question line); split; congruence.
Qed.

(** The loop only ever appends, and what it appends are the lines that
    pass, respectively fail, the test. *)
Lemma split_qa_loop_filter (lines questions answers : list str) :
  split_qa_loop lines questions answers =
  (questions ++ questions_of lines, answers ++ answers_of lines).
Proof.
  unfold split_qa_loop, questions_of, answers_of.
  revert questions answers; induction lines as [|line lines IH]; intros qs ans.
  - simpl. rewrite !app_nil_r. reflexivity.
  - simpl. destruct (is_question line); simpl; rewrite IH, <- app_assoc; reflexivity.
Qed.

Lemma split_qa_lists_filter (lines : list str) :
  split_qa_lists lines = (questions_of lines, answers_of lines).
Proof. apply split_qa_loop_filter. Qed.

Lemma split_qa_join (lines : list str) :
  split_qa lines =
  (join [newline] (questions_of lines), join [newline] (answers_of lines)).
Proof. unfold split_qa. rewrite split_qa_lists_filter. reflexivity. Qed.

Lemma interleave_filter (lines : list str) :
  Interleave (questions_of lines) (answers_of lines) lines.
Proof.
  unfold questions_of, answers_of.
  induction lines as [|line lines IH]; simpl; [constructor|].
  destruct (is_question line); simpl; constructor; exact IH.
Qed.

Lemma interleave_length {A} (xs ys zs : list A) :
  Interleave xs ys zs -> length xs + length ys = length zs.
Proof. induction 1; simpl; lia. Qed.

Lemma questions_of_question (lines : list str) :
  forallb is_question (questions_of lines) = true.
Proof.
  apply forallb_forall. intros l H. apply filter_In in H. tauto.
Qed.

Lemma answers_of_answer (lines : list str) :
  forallb (fun l => negb (is_question l)) (answers_of lines) = true.
Proof.
  apply forallb_forall. intros l H. apply filter_In in H. tauto.
Qed.

Lemma questions_of_all (lines : list str) :
  forallb is_question lines = true ->
  questions_of lines = lines /\ answers_of lines = [].
Proof.
  unfold questions_of, answers_of.
  induction lines as [|l lines IH]; simpl; [auto|].
  intros H. apply andb_true_iff in H as [-> H]. simpl.
  destruct (IH H) as [-> ->]. auto.
Qed.

Lemma answers_of_all (lines : list str) :
  forallb (fun l => negb (is_question l)) lines = true ->
  questions_of lines = [] /\ answers_of lines = lines.
Proof.
  unfold questions_of, answers_of.
  induction lines as [|l lines IH]; simpl; [auto|].
  intros H. apply andb_true_iff in H as [Hl H].
  rewrite Hl. apply negb_true_iff in Hl. rewrite Hl.
  destruct (IH H) as [-> ->]. auto.
Qed.

End Classifier.

Section ClassifierClaims.

Lemma interleave_count (xs ys zs : list str) (line : str) :
  Interleave xs ys zs ->
  count_occ str_eq_dec zs line =
  count_occ str_eq_dec xs line + count_occ str_eq_dec ys line.
Proof.
  induction 1; simpl; [reflexivity | |];
    destruct (str_eq_dec _ line); lia.
Qed.

Lemma contains_char c (s : str) : contains [c] s = existsb (N.eqb c) s.
Proof.
  induction s as [|x s IH]; [reflexivity|].
  cbn [contains existsb startswith]. rewrite IH, andb_true_r, N.eqb_sym.
  reflexivity.
Qed.

Lemma no_newline_filter (f : str -> bool) (lines : list str) :
  no_newline lines = true -> no_newline (filter f lines) = true.
Proof.
  unfold no_newline. rewrite !forallb_forall.
  intros H l Hl. apply filter_In in Hl. apply H, Hl.
Qed.

(** Splitting a pane gives back the lines it was joined from, except
    that the pane of no line and the pane of one empty line are both
    empty. *)
Lemma lines_of_join (fields : list str) :
  no_newline fields = true ->
  lines_of (join [newline] fields) = fields
  \/ (join [newline] fields = [] /\ lines_of (join [newline] fields) = []).
Proof.
  intros H. unfold lines_of.
  destruct (truthy (join [newline] fields)) eqn:T.
  - left. destruct fields as [|x xs]; [discriminate|].
    apply split_join. unfold no_newline in H.
    rewrite forallb_forall in H. apply forallb_forall.
    intros l Hl. rewrite <- contains_char. apply H, Hl.
  - right. destruct (join [newline] fields); [auto | discriminate].
Qed.

Lemma classified_filter (lines : list str) :
  Classified lines (questions_of lines) (answers_of lines).
Proof.
  unfold questions_of, answers_of.
  induction lines as [|line lines IH]; simpl; [constructor|].
  destruct (is_question line) eqn:E; simpl.
  - apply Classified_question; [apply is_question_rule, E | exact IH].
  - apply Classified_answer; [apply is_question_rule_false, E | exact IH].
Qed.

Lemma classified_functional (lines q1 a1 q2 a2 : list str) :
  Classified lines q1 a1 -> Classified lines q2 a2 -> q1 = q2 /\ a1 = a2.
Proof.
  intros C1. revert q2 a2.
  induction C1 as [| line lines q a R C IH | line lines q a R C IH];
    intros q2 a2 C2;
    inversion C2 as [| ? ? q' a' R' C' | ? ? q' a' R' C']; subst;
    try contradiction; [auto | |];
    destruct (IH _ _ C') as [-> ->]; auto.
Qed.

(** C1: [split_qa] returns the newline joins of the one classification of
    its lines in which a line is a question exactly when it ends with [?]
    or holds [User A:] or [Question:], and an answer otherwise. Where a
    line goes does not depend on the lines before or after it, nor theirs
    on it, and the line is stored as it is. *)
Theorem split_qa_classifies_by_rule (lines before after : list str) (line : str) :
  (exists questions answers,
     Classified lines questions answers
     /\ (forall questions' answers',
           Classified lines questions' answers' ->
           questions' = questions /\ answers' = answers)
     /\ split_qa_lists lines = (questions, answers)
     /\ split_qa lines = (join [newline] questions, join [newline] answers))
  /\ (QuestionRule line ->
      split_qa_lists (before ++ line :: after) =
        (fst (split_qa_lists before) ++ line :: fst (split_qa_lists after),
         snd (split_qa_lists before) ++ snd (split_qa_lists after))
      /\ split_qa (before ++ line :: after) =
         (join [newline]
               (fst (split_qa_lists before) ++ line :: fst (split_qa_lists after)),
          join [newline]
               (snd (split_qa_lists before) ++ snd (split_qa_lists after)))
      /\ split_qa [line] = (line, []))
  /\ (~ QuestionRule line ->
      split_qa_lists (before ++ line :: after) =
        (fst (split_qa_lists before) ++ fst (split_qa_lists after),
         snd (split_qa_lists before) ++ line :: snd (split_qa_lists after))
      /\ split_qa (before ++ line :: after) =
         (join [newline]
               (fst (split_qa_lists before) ++ fst (split_qa_lists after)),
          join [newline]
               (snd (split_qa_lists before) ++ line :: snd (split_qa_lists after)))
      /\ split_qa [line] = ([], line)).
Proof.
  split.
  { exists (questions_of lines), (answers_of lines).
    split; [apply classified_filter|].
    split; [|split; [apply split_qa_lists_filter | apply split_qa_join]].
    intros q a C.
    exact (classified_functional C (classified_filter lines)). }
  rewrite !split_qa_join, !split_qa_lists_filter.
  unfold questions_of, answers_of. cbn [fst snd].
  rewrite !filter_app. cbn [filter].
  split; intros H.
  - apply is_question_rule in H. rewrite H. cbn [negb app join]. auto.
  - apply is_question_rule_false in H. rewrite H. cbn [negb app join]. auto.
Qed.

(** C2: the questions and the answers [split_qa] collects partition the
    input: the input is the two lists shuffled together with each kept in
    order, every line is in one of them and not in the other, as often
    as in the input, and their lengths add up to the input's. *)
Theorem split_qa_partitions (lines : list str) :
  exists questions answers,
    split_qa_lists lines = (questions, answers)
    /\ split_qa lines = (join [newline] questions, join [newline] answers)
    /\ Interleave questions answers lines
    /\ length questions + length answers = length lines
    /\ (forall line, In line lines ->
          (In line questions /\ ~ In line answers)
          \/ (In line answers /\ ~ In line questions))
    /\ (forall line,
          count_occ str_eq_dec lines line =
          count_occ str_eq_dec questions line
          + count_occ str_eq_dec answers line).
Proof.
  exists (questions_of lines), (answers_of lines).
  pose proof (interleave_filter lines) as I.
  repeat split.
  - apply split_qa_lists_filter.
  - apply split_qa_join.
  - exact I.
  - apply interleave_length, I.
  - intros line H. unfold questions_of, answers_of.
    rewrite !filter_In. destruct (is_question line) eqn:E; simpl.
    + left. intuition discriminate.
    + right. intuition discriminate.
  - intros line. apply interleave_count, I.
Qed.

(** C7: [split_qa] of no line is two empty strings, and in general each
    output is its lines, in the order of the input, joined by newlines:
    the first line, then a newline before each further line. *)
Theorem split_qa_newline_join (lines : list str) :
  split_qa [] = ([], [])
  /\ split_qa lines =
     (join [newline] (filter is_question lines),
      join [newline] (filter (fun line => negb (is_question line)) lines))
  /\ join [newline] [] = []
  /\ (forall x xs,
        join [newline] (x :: xs) = x ++ flat_map (fun y => newline :: y) xs).
Proof.
  repeat split.
  - apply split_qa_join.
  - intros x xs. apply (join_cons [newline]).
Qed.

(** C9, as the code has it: a line with a newline inside falls apart when
    the questions pane is split again, and its parts are classified on
    their own. *)
Lemma split_qa_reclassify_embedded_newline :
  ~ (forall (lines : list str) (Q A : str),
       split_qa lines = (Q, A) ->
       split_qa (lines_of Q) = (Q, [])
       /\ split_qa (lines_of A) = ([], A)).
Proof.
  intros H.
  destruct (H [lit "User A: hi" ++ [newline] ++ lit "fine."] _ _ eq_refl) as [HQ _].
  vm_compute in HQ. discriminate HQ.
Qed.

(** C9, amended: when no line holds a newline, classifying the lines of
    the questions pane again gives the same pane and no answer, and
    classifying the lines of the answers pane again gives no question
    and the same pane. *)
Theorem split_qa_reclassify_stable (lines : list str) :
  no_newline lines = true ->
  split_qa (lines_of (fst (split_qa lines))) = (fst (split_qa lines), [])
  /\ split_qa (lines_of (snd (split_qa lines))) = ([], snd (split_qa lines)).
Proof.
  intros H. rewrite (split_qa_join lines). cbn [fst snd]. split.
  - destruct (lines_of_join (questions_of lines)) as [E | [E1 E2]];
      [apply no_newline_filter, H | | rewrite E2, E1; reflexivity].
    rewrite E, split_qa_join.
    destruct (questions_of_all (questions_of lines) (questions_of_question lines))
      as [-> ->].
    reflexivity.
  - destruct (lines_of_join (answers_of lines)) as [E | [E1 E2]];
      [apply no_newline_filter, H | | rewrite E2, E1; reflexivity].
    rewrite E, split_qa_join.
    destruct (answers_of_all (answers_of lines) (answers_of_answer lines))
      as [-> ->].
    reflexivity.
Qed.

Lemma split_qa_reclassify_stable_witness :
  let lines := [lit "Is this correct?"; lit "It works fine."; lit "User A: hello"] in
  split_qa (lines_of (fst (split_qa lines))) = (fst (split_qa lines), [])
  /\ split_qa (lines_of (snd (split_qa lines))) = ([], snd (split_qa lines)).
Proof.
  apply (split_qa_reclassify_stable
           [lit "Is this correct?"; lit "It works fine."; lit "User A: hello"]).
  reflexivity.
Defined.

End ClassifierClaims.

(** ** The summarization client *)

Section Summarization.

Context {sdk : TextAnalyticsSdk}.
Variable sidebar : Sidebar.

Lemma fold_append_text (summaries : list AbstractiveSummary) (out : list str) :
  fold_left (fun out summary => out ++ [text summary]) summaries out =
  out ++ map text summaries.
Proof.
  revert out; induction summaries as [|s ss IH]; intros out; simpl.
  - rewrite app_nil_r. reflexivity.
  - rewrite IH, <- app_assoc. reflexivity.
Qed.

(** The loop passes over entries that are no errors, collecting their
    fragments. *)
Lemma summarize_loop_app (before : list document_result) (rest : paged)
      (out : list str) :
  forallb (fun doc => negb (is_error doc)) before = true ->
  summarize_loop (paged_app before rest) out =
  summarize_loop rest (out ++ fragments before).
Proof.
  revert out; induction before as [|doc before IH]; intros out H; simpl.
  - rewrite app_nil_r. reflexivity.
  - simpl in H. apply andb_true_iff in H as [Hd H].
    destruct doc as [summaries | error]; [|discriminate].
    rewrite IH by exact H. rewrite fold_append_text, <- app_assoc. reflexivity.
Qed.

Lemma summarize_loop_log (response : paged) (out : list str) :
  snd (summarize_loop response out) = [].
Proof.
  revert out; induction response as [| doc rest IH | e]; intros out;
    [reflexivity | | reflexivity].
  destruct doc; simpl; [apply IH | reflexivity].
Qed.

Lemma summarize_with_azure_blank_run (text_to_summarize : str) :
  forallb isspace text_to_summarize = true ->
  summarize_with_azure sidebar text_to_summarize =
  (Ok (lit "No answer text provided to summarize."), []).
Proof.
  intros H. unfold summarize_with_azure.
  rewrite truthy_strip, H. reflexivity.
Qed.

(** Once the client is built, the [try] block turns every outcome into
    a returned string. *)
Lemma summarize_with_azure_returns_with_client
      (text_to_summarize : str) (client : Client) (log : list effect) :
  get_language_client sidebar = (Ok client, log) ->
  exists s log', summarize_with_azure sidebar text_to_summarize = (Ok s, log').
Proof.
  intros G. unfold summarize_with_azure.
  destruct (negb (truthy (strip text_to_summarize))); [eexists _, _; reflexivity|].
  rewrite G. unfold bind, try_except, call, ret.
  destruct (begin_abstract_summary client [text_to_summarize]) as [poller|e];
    [|eexists _, _; reflexivity].
  destruct (poller_result poller) as [response|e]; [|eexists _, _; reflexivity].
  destruct (summarize_loop response []) as [[[returned|summary_out]|e] l];
    eexists _, _; reflexivity.
Qed.

(** An exception leaves [summarize_with_azure] exactly when the text is
    not blank and building the client raises it. *)
Lemma summarize_with_azure_raises (text_to_summarize : str) (e : PyException) :
  fst (summarize_with_azure sidebar text_to_summarize) = Raise e <->
  truthy (strip text_to_summarize) = true
  /\ fst (get_language_client sidebar) = Raise e.
Proof.
  destruct (get_language_client sidebar) as [[client|e'] log] eqn:G.
  - destruct (summarize_with_azure_returns_with_client text_to_summarize G)
      as (s & log' & ->). simpl. split; [discriminate | intros [_ H]; discriminate].
  - unfold summarize_with_azure. rewrite G.
    destruct (truthy (strip text_to_summarize)); unfold bind; simpl.
    + split; [intros H | intros [_ H]]; injection H as ->; auto.
    + split; [discriminate | intros [H _]; discriminate].
Qed.

(** The run on a text that is not blank, once the client is built and
    the request accepted: the four calls, and a string made of what
    [poller.result()] gives. *)
Lemma summarize_with_azure_run (text_to_summarize : str)
      (credential : Credential) (client : Client) (poller : Poller) :
  truthy (strip text_to_summarize) = true ->
  AzureKeyCredential (AZURE_KEY sidebar) = Ok credential ->
  TextAnalyticsClient (AZURE_ENDPOINT sidebar) credential = Ok client ->
  begin_abstract_summary client [text_to_summarize] = Ok poller ->
  summarize_with_azure sidebar text_to_summarize =
  (match poller_result poller with
   | Raise e => Ok (logic_error e)
   | Ok entries =>
       match fst (summarize_loop entries []) with
       | Ok (inl returned) => Ok returned
       | Ok (inr summary_out) =>
           Ok (if truthy_list summary_out then join (lit " ") summary_out
               else lit "AI could not generate a summary.")
       | Raise e => Ok (logic_error e)
       end
   end,
   sdk_calls sidebar text_to_summarize (poller_result poller)).
Proof.
  intros T A C B.
  unfold summarize_with_azure, get_language_client, bind, try_except, call, ret.
  rewrite T, A, C, B. cbn [negb].
  destruct (poller_result poller) as [entries|e]; [|reflexivity].
  pose proof (summarize_loop_log entries []) as L.
  destruct (summarize_loop entries []) as [[[returned|summary_out]|e] l];
    simpl in L; subst l; reflexivity.
Qed.

End Summarization.

Section SummarizationClaims.

Context {sdk : TextAnalyticsSdk}.
Variable sidebar : Sidebar.

(** C4: for a text that is empty or all whitespace, [summarize_with_azure]
    returns the placeholder "No answer text provided to summarize." and its
    log is empty: no credential, no client, no request. *)
Theorem summarize_with_azure_blank_placeholder (text_to_summarize : str) :
  forallb isspace text_to_summarize = true ->
  summarize_with_azure sidebar text_to_summarize =
  (Ok (lit "No answer text provided to summarize."), []).
Proof. apply summarize_with_azure_blank_run. Qed.

(** C5: for a text that is not blank, when the client is built, the
    request accepted and the response reports a document error with message
    [m] (after entries that are no errors, if any), the function returns
    "Azure Service Error: " followed by [m], a string that starts with the
    prefix and holds [m]; it has made the four calls and raises nothing. *)
Theorem summarize_with_azure_document_error
        (text_to_summarize : str) (credential : Credential) (client : Client)
        (poller : Poller) (before : list document_result)
        (m : str) (rest : paged) :
  truthy (strip text_to_summarize) = true ->
  AzureKeyCredential (AZURE_KEY sidebar) = Ok credential ->
  TextAnalyticsClient (AZURE_ENDPOINT sidebar) credential = Ok client ->
  begin_abstract_summary client [text_to_summarize] = Ok poller ->
  poller_result poller =
    Ok (paged_app before (PagedItem (DocumentError {| message := m |}) rest)) ->
  forallb (fun doc => negb (is_error doc)) before = true ->
  summarize_with_azure sidebar text_to_summarize =
    (Ok (lit "Azure Service Error: " ++ m),
     [Sdk (CallAzureKeyCredential (AZURE_KEY sidebar));
      Sdk (CallTextAnalyticsClient (AZURE_ENDPOINT sidebar));
      Sdk (CallBeginAbstractSummary [text_to_summarize]);
      Sdk (CallPollerResult
             (Ok (paged_app before
                    (PagedItem (DocumentError {| message := m |}) rest))))])
  /\ startswith (lit "Azure Service Error: " ++ m) (lit "Azure Service Error: ") = true
  /\ contains m (lit "Azure Service Error: " ++ m) = true.
Proof.
  intros T A C B R H. split; [|split].
  - rewrite (@summarize_with_azure_run sdk sidebar text_to_summarize
               credential client poller T A C B), R.
    rewrite summarize_loop_app by exact H. reflexivity.
  - apply startswith_spec. exists m. reflexivity.
  - apply contains_spec. exists (lit "Azure Service Error: "), [].
    rewrite app_nil_r. reflexivity.
Qed.

(** C6: for a text that is not blank, when the client is built, the
    request accepted and the response holds no document error, the function
    returns the fragments of the response joined by single spaces (the
    first fragment, then a space before each further one), or the
    placeholder "AI could not generate a summary." when there is no
    fragment. *)
Theorem summarize_with_azure_joins_fragments
        (text_to_summarize : str) (credential : Credential) (client : Client)
        (poller : Poller) (docs : list document_result) :
  truthy (strip text_to_summarize) = true ->
  AzureKeyCredential (AZURE_KEY sidebar) = Ok credential ->
  TextAnalyticsClient (AZURE_ENDPOINT sidebar) credential = Ok client ->
  begin_abstract_summary client [text_to_summarize] = Ok poller ->
  poller_result poller = Ok (paged_of_list docs) ->
  forallb (fun doc => negb (is_error doc)) docs = true ->
  summarize_with_azure sidebar text_to_summarize =
    (Ok (match fragments docs with
         | [] => lit "AI could not generate a summary."
         | first :: more => first ++ flat_map (fun y => lit " " ++ y) more
         end),
     [Sdk (CallAzureKeyCredential (AZURE_KEY sidebar));
      Sdk (CallTextAnalyticsClient (AZURE_ENDPOINT sidebar));
      Sdk (CallBeginAbstractSummary [text_to_summarize]);
      Sdk (CallPollerResult (Ok (paged_of_list docs)))]).
Proof.
  intros T A C B R H.
  rewrite (@summarize_with_azure_run sdk sidebar text_to_summarize
             credential client poller T A C B), R.
  unfold paged_of_list. rewrite summarize_loop_app by exact H. simpl.
  destruct (fragments docs) as [|first more]; [reflexivity|].
  cbn [truthy_list]. rewrite join_cons. reflexivity.
Qed.

End SummarizationClaims.

(** C10: for a text that is empty or all whitespace, two runs under
    different credentials (and even different services) give the same
    result, the placeholder, and the same empty log. *)
Theorem summarize_with_azure_blank_ignores_credentials
        (sdk1 sdk2 : TextAnalyticsSdk) (sidebar1 sidebar2 : Sidebar)
        (text_to_summarize : str) :
  forallb isspace text_to_summarize = true ->
  @summarize_with_azure sdk1 sidebar1 text_to_summarize =
  @summarize_with_azure sdk2 sidebar2 text_to_summarize.
Proof.
  intros H. rewrite !summarize_with_azure_blank_run by exact H. reflexivity.
Qed.

(** C3 fails in the code: the client is built before the [try], so an
    exception of its constructor leaves [summarize_with_azure]. Here the
    constructor raises and the function raises the same exception instead
    of returning a string. *)
Theorem summarize_with_azure_client_failure_escapes :
  @summarize_with_azure (canned_sdk (Raise client_failure) (Ok PagedEnd))
                        demo_sidebar (lit "It works fine.") =
  (Raise client_failure,
   [Sdk (CallAzureKeyCredential (AZURE_KEY demo_sidebar));
    Sdk (CallTextAnalyticsClient (AZURE_ENDPOINT demo_sidebar))]).
Proof. reflexivity. Qed.

Lemma summarize_with_azure_blank_placeholder_witness :
  @summarize_with_azure (canned_sdk (Ok tt) (Ok rate_limited)) demo_sidebar blank_text =
  (Ok (lit "No answer text provided to summarize."), []).
Proof.
  apply (@summarize_with_azure_blank_placeholder
           (canned_sdk (Ok tt) (Ok rate_limited)) demo_sidebar blank_text).
  reflexivity.
Defined.

Lemma summarize_with_azure_blank_ignores_credentials_witness :
  @summarize_with_azure (canned_sdk (Ok tt) (Ok rate_limited)) demo_sidebar blank_text =
  @summarize_with_azure (canned_sdk (Raise client_failure) (Ok PagedEnd))
                        other_sidebar blank_text.
Proof.
  apply (summarize_with_azure_blank_ignores_credentials
           (canned_sdk (Ok tt) (Ok rate_limited))
           (canned_sdk (Raise client_failure) (Ok PagedEnd))
           demo_sidebar other_sidebar blank_text).
  reflexivity.
Defined.

Lemma summarize_with_azure_document_error_witness :
  @summarize_with_azure (canned_sdk (Ok tt) (Ok rate_limited))
                        demo_sidebar (lit "It works fine.") =
    (Ok (lit "Azure Service Error: " ++ lit "rate limited"),
     [Sdk (CallAzureKeyCredential (AZURE_KEY demo_sidebar));
      Sdk (CallTextAnalyticsClient (AZURE_ENDPOINT demo_sidebar));
      Sdk (CallBeginAbstractSummary [lit "It works fine."]);
      Sdk (CallPollerResult
             (Ok (paged_app []
                    (PagedItem (DocumentError {| message := lit "rate limited" |})
                               PagedEnd))))])
  /\ startswith (lit "Azure Service Error: " ++ lit "rate limited")
                (lit "Azure Service Error: ") = true
  /\ contains (lit "rate limited")
              (lit "Azure Service Error: " ++ lit "rate limited") = true.
Proof.
  apply (@summarize_with_azure_document_error
           (canned_sdk (Ok tt) (Ok rate_limited)) demo_sidebar
           (lit "It works fine.") (AZURE_KEY demo_sidebar) tt tt
           [] (lit "rate limited") PagedEnd);
    reflexivity.
Defined.

Lemma summarize_with_azure_joins_fragments_witness :
  @summarize_with_azure (canned_sdk (Ok tt) (Ok (paged_of_list two_fragments)))
                        demo_sidebar (lit "It works fine.") =
    (Ok (lit "It works. It is fine."),
     [Sdk (CallAzureKeyCredential (AZURE_KEY demo_sidebar));
      Sdk (CallTextAnalyticsClient (AZURE_ENDPOINT demo_sidebar));
      Sdk (CallBeginAbstractSummary [lit "It works fine."]);
      Sdk (CallPollerResult (Ok (paged_of_list two_fragments)))]).
Proof.
  apply (@summarize_with_azure_joins_fragments
           (canned_sdk (Ok tt) (Ok (paged_of_list two_fragments))) demo_sidebar
           (lit "It works fine.") (AZURE_KEY demo_sidebar) tt tt two_fragments);
    reflexivity.
Defined.

(** ** The script *)

Section Script.

Context {sdk : TextAnalyticsSdk} {docx : Docx}.
Variable sidebar : Sidebar.

Lemma truthy_nonempty (s : str) : truthy s = true <-> s <> [].
Proof. destruct s; simpl; split; congruence. Qed.

(** Without both credentials the script draws the warning and nothing
    else, whatever was uploaded. *)
Lemma main_missing_credentials (session : Session) :
  truthy (AZURE_KEY sidebar) && truthy (AZURE_ENDPOINT sidebar) = false ->
  main sidebar session = (Ok tt, [Render (Warning missing_credentials_msg)]).
Proof.
  intros H. unfold main. rewrite H.
  destruct (uploaded_file session); reflexivity.
Qed.

Lemma main_missing_document (session : Session) :
  truthy (AZURE_KEY sidebar) && truthy (AZURE_ENDPOINT sidebar) = true ->
  uploaded_file session = None ->
  main sidebar session = (Ok tt, [Render (Info missing_document_msg)]).
Proof. intros H N. unfold main. rewrite H, N. reflexivity. Qed.

(** Before the button is clicked the script has read the document and,
    if that went well, drawn the button; nothing more. *)
Lemma main_not_clicked (session : Session) (file : UploadedFile) :
  truthy (AZURE_KEY sidebar) && truthy (AZURE_ENDPOINT sidebar) = true ->
  uploaded_file session = Some file ->
  analyze_clicked session = false ->
  main sidebar session =
  match Document file with
  | Ok _ => (Ok tt, [ReadDocument;
                     Render (Button (lit "Analyze & Summarize Answers"))])
  | Raise e => (Raise e, [ReadDocument])
  end.
Proof.
  intros H F C. unfold main, read_docx, st_button, bind, render, ret.
  rewrite H, F, C.
  destruct (Document file); reflexivity.
Qed.

(** With a document of at least one line, both credentials and the
    click, the analysis starts. *)
Lemma main_runs_analysis (session : Session) (file : UploadedFile)
      (paragraphs : list str) :
  truthy (AZURE_KEY sidebar) && truthy (AZURE_ENDPOINT sidebar) = true ->
  uploaded_file session = Some file ->
  Document file = Ok paragraphs ->
  existsb (fun para => truthy (strip para)) paragraphs = true ->
  analyze_clicked session = true ->
  In (Render (Spinner spinner_msg)) (snd (main sidebar session)).
Proof.
  intros H F D P C. unfold main, read_docx, st_button.
  rewrite H, F, D, C.
  assert (L : truthy_list
                (map strip (filter (fun para => truthy (strip para)) paragraphs))
              = true).
  { clear -P. induction paragraphs as [|p ps IH]; simpl in *; [discriminate|].
    destruct (truthy (strip p)); simpl; [reflexivity | apply IH, P]. }
  unfold bind at 1. unfold bind at 1. unfold ret at 1.
  unfold bind at 1. unfold render at 1.
  unfold bind at 1. unfold ret at 1. rewrite L. cbn [negb].
  unfold bind at 1. unfold render at 1.
  destruct (try_except _ _) as [r log]. simpl. auto.
Qed.



End Script.


(** ** Reading the document *)

Section ReadDocx.

Lemma lstrip_head (s : str) :
  lstrip s = [] \/ exists c rest, lstrip s = c :: rest /\ isspace c = false.
Proof.
  induction s as [|c s IH]; simpl; [auto|].
  destruct (isspace c) eqn:E; [exact IH | right; eauto].
Qed.

Lemma lstrip_fixed (c : char) (rest : str) :
  isspace c = false -> lstrip (c :: rest) = c :: rest.
Proof. intros E. simpl. rewrite E. reflexivity. Qed.

Lemma lstrip_snoc (s : str) (c : char) :
  isspace c = false -> exists front, lstrip (s ++ [c]) = front ++ [c].
Proof.
  intros E. induction s as [|x s IH]; simpl.
  - rewrite E. exists []. reflexivity.
  - destruct (isspace x); [exact IH | exists (x :: s); reflexivity].
Qed.

(** What [strip] leaves is empty or has a character that is no whitespace
    at either end. *)
Lemma strip_ends (s : str) : strip s = [] \/ trimmed_line (strip s).
Proof.
  unfold strip, rstrip.
  destruct (lstrip_head s) as [-> | (c & rest & -> & E)]; [left; reflexivity|].
  right. simpl rev.
  destruct (@lstrip_snoc (rev rest) c E) as [front F].
  destruct (lstrip_head (rev rest ++ [c])) as [N | (d & more & D & Ed)].
  - rewrite F in N. destruct front; discriminate.
  - split.
    + rewrite F, rev_app_distr. simpl. eauto.
    + rewrite D. simpl. eauto.
Qed.

Lemma strip_trimmed (line : str) : trimmed_line line -> strip line = line.
Proof.
  intros [(c & rest & -> & E) (front & d & F & Ed)].
  unfold strip, rstrip. rewrite (@lstrip_fixed c rest E), F, rev_app_distr.
  simpl rev at 2. simpl app. rewrite (@lstrip_fixed d (rev front) Ed).
  simpl. rewrite rev_involutive. reflexivity.
Qed.

Lemma strip_idempotent (s : str) : strip (strip s) = strip s.
Proof.
  destruct (strip_ends s) as [-> | T]; [reflexivity | apply strip_trimmed, T].
Qed.

Lemma trimmed_line_truthy (line : str) : trimmed_line line -> truthy (strip line) = true.
Proof.
  intros T. rewrite (@strip_trimmed line T). destruct T as [(c & rest & -> & _) _].
  reflexivity.
Qed.

Lemma lines_of_paragraphs_trimmed (paragraphs : list str) (line : str) :
  In line (lines_of_paragraphs paragraphs) ->
  trimmed_line line /\ exists para, In para paragraphs /\ line = strip para.
Proof.
  unfold lines_of_paragraphs. intros H.
  apply in_map_iff in H as (para & <- & H). apply filter_In in H as [H T].
  split; [|eauto].
  destruct (strip_ends para) as [E | E]; [rewrite E in T; discriminate | exact E].
Qed.


Lemma lines_of_paragraphs_nil (paragraphs : list str) :
  lines_of_paragraphs paragraphs = [] <->
  forall para, In para paragraphs -> forallb isspace para = true.
Proof.
  unfold lines_of_paragraphs.
  induction paragraphs as [|p ps IH]; simpl.
  - split; [intros _ para [] | reflexivity].
  - rewrite truthy_strip. destruct (forallb isspace p) eqn:E; simpl.
    + rewrite IH. split.
      * intros H para [<-|Hp]; [exact E | apply H, Hp].
      * intros H para Hp. apply H. right. exact Hp.
    + split; [discriminate|]. intros H.
      rewrite (H p (or_introl eq_refl)) in E. discriminate.
Qed.

Context {docx : Docx}.

Lemma read_docx_ok (file : UploadedFile) (paragraphs : list str) :
  Document file = Ok paragraphs ->
  read_docx file = (Ok (lines_of_paragraphs paragraphs), [ReadDocument]).
Proof. intros D. unfold read_docx, bind, ret. rewrite D. reflexivity. Qed.

(** X1: of a document that parses, [read_docx] returns lines each of which
    is not empty, begins and ends with a character that is no whitespace,
    and is the [strip] of one of the paragraphs. *)
Theorem read_docx_lines_trimmed (file : UploadedFile) (paragraphs : list str) :
  Document file = Ok paragraphs ->
  exists lines,
    read_docx file = (Ok lines, [ReadDocument])
    /\ forall line, In line lines ->
                    trimmed_line line
                    /\ strip line = line
                    /\ exists para, In para paragraphs /\ line = strip para.
Proof.
  intros D. exists (lines_of_paragraphs paragraphs).
  split; [apply read_docx_ok, D|].
  intros line H. apply lines_of_paragraphs_trimmed in H as [T P].
  repeat split; [apply T | apply T | apply strip_trimmed, T | exact P].
Qed.


(** X3: [read_docx] returns one line for each paragraph that is not
    blank, so never more lines than paragraphs, and no line exactly when
    every paragraph is empty or all whitespace. *)
Theorem read_docx_drops_blank_paragraphs (file : UploadedFile)
        (paragraphs : list str) :
  Document file = Ok paragraphs ->
  exists lines,
    read_docx file = (Ok lines, [ReadDocument])
    /\ length lines =
       length (filter (fun para => negb (forallb isspace para)) paragraphs)
    /\ length lines <= length paragraphs
    /\ (lines = [] <->
        forall para, In para paragraphs -> forallb isspace para = true).
Proof.
  intros D. exists (lines_of_paragraphs paragraphs).
  split; [apply read_docx_ok, D|].
  assert (L : length (lines_of_paragraphs paragraphs) =
              length (filter (fun para => negb (forallb isspace para)) paragraphs)).
  { unfold lines_of_paragraphs. rewrite length_map. f_equal.
    apply filter_ext. intros para. apply truthy_strip. }
  split; [exact L|]. split; [|apply lines_of_paragraphs_nil].
  rewrite L. apply filter_length_le.
Qed.

End ReadDocx.

(** ** The summarization client: failures and effects *)

Section SummarizationFailures.

Context {sdk : TextAnalyticsSdk}.
Variable sidebar : Sidebar.

(** The log of a run is a beginning of the four calls; what the run got
    from [poller.result()], if it got that far, is in the log. *)
Lemma summarize_with_azure_log (text_to_summarize : str) :
  exists n response,
    snd (summarize_with_azure sidebar text_to_summarize) =
    firstn n (sdk_calls sidebar text_to_summarize response)
    /\ (truthy (strip text_to_summarize) = false -> n = 0)
    /\ (truthy (strip text_to_summarize) = true -> 1 <= n).
Proof.
  unfold summarize_with_azure, get_language_client, bind, try_except, call, ret.
  destruct (truthy (strip text_to_summarize)); simpl negb; cbv iota.
  2: { exists 0, (Ok PagedEnd).
       split; [reflexivity | split; [reflexivity | discriminate]]. }
  destruct (AzureKeyCredential (AZURE_KEY sidebar)) as [credential|e].
  2: { exists 1, (Ok PagedEnd).
       split; [reflexivity | split; [discriminate | intros _; lia]]. }
  destruct (TextAnalyticsClient (AZURE_ENDPOINT sidebar) credential) as [client|e].
  2: { exists 2, (Ok PagedEnd).
       split; [reflexivity | split; [discriminate | intros _; lia]]. }
  destruct (begin_abstract_summary client [text_to_summarize]) as [poller|e].
  2: { exists 3, (Ok PagedEnd).
       split; [reflexivity | split; [discriminate | intros _; lia]]. }
  exists 4, (poller_result poller).
  destruct (poller_result poller) as [response|e].
  2: { split; [reflexivity | split; [discriminate | intros _; lia]]. }
  pose proof (summarize_loop_log response []) as L.
  destruct (summarize_loop response []) as [[[returned|summary_out]|e] l];
    simpl in L; subst l;
    (split; [reflexivity | split; [discriminate | intros _; lia]]).
Qed.

Lemma in_firstn_in {A} (n : nat) (l : list A) (x : A) :
  In x (firstn n l) -> In x l.
Proof.
  intros H. rewrite <- (firstn_skipn n l). apply in_or_app. left. exact H.
Qed.

Lemma summarize_with_azure_log_in (text_to_summarize : str) (eff : effect) :
  In eff (snd (summarize_with_azure sidebar text_to_summarize)) ->
  truthy (strip text_to_summarize) = true
  /\ (eff = Sdk (CallAzureKeyCredential (AZURE_KEY sidebar))
      \/ eff = Sdk (CallTextAnalyticsClient (AZURE_ENDPOINT sidebar))
      \/ eff = Sdk (CallBeginAbstractSummary [text_to_summarize])
      \/ exists response, eff = Sdk (CallPollerResult response)).
Proof.
  destruct (summarize_with_azure_log text_to_summarize)
    as (n & response & -> & B & _).
  intros H. split.
  - destruct (truthy (strip text_to_summarize)); [reflexivity|].
    rewrite (B eq_refl) in H. destruct H.
  - apply in_firstn_in in H. simpl in H.
    destruct H as [<-|[<-|[<-|[<-|[]]]]]; eauto 6.
Qed.

Lemma summarize_with_azure_first_call (text_to_summarize : str) :
  truthy (strip text_to_summarize) = true ->
  In (Sdk (CallAzureKeyCredential (AZURE_KEY sidebar)))
     (snd (summarize_with_azure sidebar text_to_summarize)).
Proof.
  intros T.
  destruct (summarize_with_azure_log text_to_summarize)
    as (n & response & -> & _ & B).
  specialize (B T). destruct n as [|n]; [lia|]. left. reflexivity.
Qed.

Lemma summarize_loop_raise_after (docs : list document_result)
      (e : PyException) (out : list str) :
  forallb (fun doc => negb (is_error doc)) docs = true ->
  summarize_loop (paged_app docs (PagedRaise e)) out = (Raise e, []).
Proof.
  intros H. rewrite summarize_loop_app by exact H. reflexivity.
Qed.

(** X4: an exception leaves [summarize_with_azure] exactly when the text is
    not blank and either [AzureKeyCredential] raises it or, the credential
    built, [TextAnalyticsClient] raises it. *)
Theorem summarize_with_azure_exception_iff (text_to_summarize : str)
        (e : PyException) :
  fst (summarize_with_azure sidebar text_to_summarize) = Raise e <->
  truthy (strip text_to_summarize) = true
  /\ (AzureKeyCredential (AZURE_KEY sidebar) = Raise e
      \/ exists credential,
           AzureKeyCredential (AZURE_KEY sidebar) = Ok credential
           /\ TextAnalyticsClient (AZURE_ENDPOINT sidebar) credential = Raise e).
Proof.
  rewrite summarize_with_azure_raises.
  unfold get_language_client, bind, call.
  destruct (AzureKeyCredential (AZURE_KEY sidebar)) as [credential|e1].
  - destruct (TextAnalyticsClient (AZURE_ENDPOINT sidebar) credential)
      as [client|e2] eqn:C; simpl.
    + split; intros [T H]; [discriminate|].
      destruct H as [H | (c & H & H')]; [discriminate|].
      injection H as <-. rewrite C in H'. discriminate.
    + split; intros [T H]; (split; [exact T|]).
      * injection H as <-. right. exists credential. split; [reflexivity | exact C].
      * destruct H as [H | (c & H & H')]; [discriminate|].
        injection H as <-. rewrite C in H'. injection H' as <-. reflexivity.
  - simpl. split; intros [T H]; (split; [exact T|]).
    + injection H as <-. left. reflexivity.
    + destruct H as [H | (c & H & _)]; [|discriminate].
      injection H as <-. reflexivity.
Qed.

(** X5: for a text that is not blank, when the client is built, the
    request accepted and [poller.result()] raises, the function returns
    "Logic Error: " followed by the exception's message, after the four
    calls. *)
Theorem summarize_with_azure_poll_failure (text_to_summarize : str)
        (credential : Credential) (client : Client) (poller : Poller)
        (e : PyException) :
  truthy (strip text_to_summarize) = true ->
  AzureKeyCredential (AZURE_KEY sidebar) = Ok credential ->
  TextAnalyticsClient (AZURE_ENDPOINT sidebar) credential = Ok client ->
  begin_abstract_summary client [text_to_summarize] = Ok poller ->
  poller_result poller = Raise e ->
  summarize_with_azure sidebar text_to_summarize =
  (Ok (lit "Logic Error: " ++ exn_str e),
   [Sdk (CallAzureKeyCredential (AZURE_KEY sidebar));
    Sdk (CallTextAnalyticsClient (AZURE_ENDPOINT sidebar));
    Sdk (CallBeginAbstractSummary [text_to_summarize]);
    Sdk (CallPollerResult (Raise e))]).
Proof.
  intros T A C B R.
  rewrite (@summarize_with_azure_run sdk sidebar text_to_summarize
             credential client poller T A C B), R.
  reflexivity.
Qed.

(** X6: for a text that is not blank, when the client is built, the
    request accepted and reading the response raises after entries that
    are no errors, their fragments are dropped: the function returns
    "Logic Error: " followed by the exception's message. *)
Theorem summarize_with_azure_iteration_failure (text_to_summarize : str)
        (credential : Credential) (client : Client) (poller : Poller)
        (docs : list document_result) (e : PyException) :
  truthy (strip text_to_summarize) = true ->
  AzureKeyCredential (AZURE_KEY sidebar) = Ok credential ->
  TextAnalyticsClient (AZURE_ENDPOINT sidebar) credential = Ok client ->
  begin_abstract_summary client [text_to_summarize] = Ok poller ->
  poller_result poller = Ok (paged_app docs (PagedRaise e)) ->
  forallb (fun doc => negb (is_error doc)) docs = true ->
  summarize_with_azure sidebar text_to_summarize =
  (Ok (lit "Logic Error: " ++ exn_str e),
   [Sdk (CallAzureKeyCredential (AZURE_KEY sidebar));
    Sdk (CallTextAnalyticsClient (AZURE_ENDPOINT sidebar));
    Sdk (CallBeginAbstractSummary [text_to_summarize]);
    Sdk (CallPollerResult (Ok (paged_app docs (PagedRaise e))))]).
Proof.
  intros T A C B R N.
  rewrite (@summarize_with_azure_run sdk sidebar text_to_summarize
             credential client poller T A C B), R.
  rewrite summarize_loop_raise_after by exact N. reflexivity.
Qed.

(** X7: when the client is built and [begin_abstract_summary] raises on a
    text that is not blank, the run returns "Logic Error: " followed by the
    exception's message, and [poller.result()] is never called. *)
Theorem summarize_with_azure_begin_failure (text_to_summarize : str)
        (client : Client) (log : list effect) (e : PyException) :
  truthy (strip text_to_summarize) = true ->
  get_language_client sidebar = (Ok client, log) ->
  begin_abstract_summary client [text_to_summarize] = Raise e ->
  summarize_with_azure sidebar text_to_summarize =
  (Ok (lit "Logic Error: " ++ exn_str e),
   log ++ [Sdk (CallBeginAbstractSummary [text_to_summarize])]).
Proof.
  intros T G B. unfold summarize_with_azure. rewrite T, G. simpl negb. cbv iota.
  unfold bind, try_except, call, ret. rewrite B. rewrite app_nil_r. reflexivity.
Qed.

(** X8: all [summarize_with_azure] does to its environment is a beginning
    of these calls, in this order: the credential from [AZURE_KEY], the
    client from [AZURE_ENDPOINT], one request holding the text as it is as
    its only document, one poll. It draws no widget. *)
Theorem summarize_with_azure_effects (text_to_summarize : str) :
  exists n response,
    snd (summarize_with_azure sidebar text_to_summarize) =
    firstn n [Sdk (CallAzureKeyCredential (AZURE_KEY sidebar));
              Sdk (CallTextAnalyticsClient (AZURE_ENDPOINT sidebar));
              Sdk (CallBeginAbstractSummary [text_to_summarize]);
              Sdk (CallPollerResult response)].
Proof.
  destruct (summarize_with_azure_log text_to_summarize) as (n & response & H & _).
  exists n, response. exact H.
Qed.

End SummarizationFailures.

(** ** The two panes *)

Section Panes.

Lemma join_nil_inv sep (x : str) (xs : list str) :
  join sep (x :: xs) = [] -> x = [].
Proof.
  rewrite join_cons. intros H. apply app_eq_nil in H. tauto.
Qed.

Lemma join_blank sep (xs : list str) :
  forallb isspace (join sep xs) = true ->
  forall x, In x xs -> forallb isspace x = true.
Proof.
  induction xs as [|y ys IH]; intros H x Hx; [destruct Hx|].
  destruct ys as [|z zs].
  - destruct Hx as [<-|[]]. exact H.
  - change (join sep (y :: z :: zs)) with (y ++ sep ++ join sep (z :: zs)) in H.
    rewrite !forallb_app, !andb_true_iff in H. destruct H as (Hy & _ & H).
    destruct Hx as [<-|Hx]; [exact Hy | apply IH; assumption].
Qed.

Lemma filter_nil_iff {A} (f : A -> bool) (l : list A) :
  filter f l = [] <-> forall x, In x l -> f x = false.
Proof.
  induction l as [|a l IH]; simpl.
  - split; [intros _ x [] | reflexivity].
  - destruct (f a) eqn:E.
    + split; [discriminate|]. intros H.
      rewrite (H a (or_introl eq_refl)) in E. discriminate.
    + rewrite IH. split.
      * intros H x [<-|Hx]; [exact E | apply H, Hx].
      * intros H x Hx. apply H. right. exact Hx.
Qed.

Lemma answers_of_nil (lines : list str) :
  answers_of lines = [] <-> forall line, In line lines -> is_question line = true.
Proof.
  unfold answers_of. rewrite filter_nil_iff. split; intros H line Hl.
  - apply negb_false_iff, H, Hl.
  - apply negb_false_iff, H, Hl.
Qed.

Lemma answers_text_blank (lines : list str) :
  (forall line, In line lines -> truthy (strip line) = true) ->
  (truthy (strip (snd (split_qa lines))) = false <->
   forall line, In line lines -> is_question line = true).
Proof.
  intros T. rewrite split_qa_join. cbn [snd].
  rewrite truthy_strip, negb_false_iff. split.
  - intros B line H. destruct (is_question line) eqn:Q; [reflexivity|].
    assert (A : In line (answers_of lines))
      by (apply filter_In; rewrite Q; auto).
    pose proof (@join_blank _ _ B line A) as S.
    specialize (T line H). rewrite truthy_strip, S in T. discriminate.
  - intros Q. apply answers_of_nil in Q. rewrite Q. reflexivity.
Qed.

(** X9: the questions text is empty exactly when no line is a question. *)
Theorem split_qa_no_question (lines : list str) :
  fst (split_qa lines) = [] <->
  forall line, In line lines -> is_question line = false.
Proof.
  rewrite split_qa_join. cbn [fst].
  unfold questions_of at 1. rewrite <- filter_nil_iff. split.
  - intros J. destruct (filter is_question lines) as [|q qs] eqn:F; [reflexivity|].
    apply join_nil_inv in J. subst q.
    assert (I : In [] (filter is_question lines)) by (rewrite F; left; reflexivity).
    apply filter_In in I as [_ I]. discriminate I.
  - intros ->. reflexivity.
Qed.

(** X10: for lines none of which is blank, as [read_docx] gives them,
    the answers text is blank exactly when every line is a question. *)
Theorem split_qa_answers_blank (lines : list str) :
  (forall line, In line lines -> truthy (strip line) = true) ->
  (truthy (strip (snd (split_qa lines))) = false <->
   forall line, In line lines -> is_question line = true).
Proof. apply answers_text_blank. Qed.

End Panes.

(** ** The runs of the script *)

Section ScriptRuns.

Context {sdk : TextAnalyticsSdk} {docx : Docx}.
Variable sidebar : Sidebar.

Lemma main_parse_error (session : Session) (file : UploadedFile)
      (e : PyException) :
  truthy (AZURE_KEY sidebar) && truthy (AZURE_ENDPOINT sidebar) = true ->
  uploaded_file session = Some file ->
  Document file = Raise e ->
  main sidebar session = (Raise e, [ReadDocument]).
Proof.
  intros K F D. unfold main, read_docx, bind. rewrite K, F, D. reflexivity.
Qed.

Lemma main_no_line (session : Session) (file : UploadedFile)
      (paragraphs : list str) :
  truthy (AZURE_KEY sidebar) && truthy (AZURE_ENDPOINT sidebar) = true ->
  uploaded_file session = Some file ->
  Document file = Ok paragraphs ->
  analyze_clicked session = true ->
  lines_of_paragraphs paragraphs = [] ->
  main sidebar session =
  (Ok tt, [ReadDocument;
           Render (Button (lit "Analyze & Summarize Answers"));
           Render (Error (lit "The uploaded file appears to be empty."))]).
Proof.
  intros K F D C L. unfold main. rewrite K, F, (read_docx_ok _ D), L.
  unfold st_button, bind, render, ret. rewrite C. reflexivity.
Qed.

(** The run of the script once the analysis starts. *)
Lemma main_analysis (session : Session) (file : UploadedFile)
      (paragraphs : list str) :
  truthy (AZURE_KEY sidebar) && truthy (AZURE_ENDPOINT sidebar) = true ->
  uploaded_file session = Some file ->
  Document file = Ok paragraphs ->
  analyze_clicked session = true ->
  lines_of_paragraphs paragraphs <> [] ->
  main sidebar session =
  match summarize_with_azure sidebar
          (snd (split_qa (lines_of_paragraphs paragraphs))) with
  | (Ok summary_txt, log) =>
      (Ok tt,
       analysis_prologue ++ log ++
       results_display (fst (split_qa (lines_of_paragraphs paragraphs)))
                       (snd (split_qa (lines_of_paragraphs paragraphs)))
                       summary_txt)
  | (Raise e, log) =>
      (Ok tt,
       analysis_prologue ++ log ++
       [Render (Error (lit "Critical Error: " ++ exn_str e))])
  end.
Proof.
  intros K F D C L. unfold main. rewrite K, F, (read_docx_ok _ D).
  destruct (lines_of_paragraphs paragraphs) as [|l ls] eqn:E; [congruence|].
  cbv beta iota zeta delta [bind try_except render ret st_button analyze].
  rewrite C. cbn [truthy_list negb].
  destruct (split_qa (l :: ls)) as [questions_txt answers_txt]. cbn [fst snd].
  destruct (summarize_with_azure sidebar answers_txt) as [[summary_txt|e] log];
    cbn [app]; rewrite ?app_nil_r; reflexivity.
Qed.

Lemma credentials_truthy :
  AZURE_KEY sidebar <> [] -> AZURE_ENDPOINT sidebar <> [] ->
  truthy (AZURE_KEY sidebar) && truthy (AZURE_ENDPOINT sidebar) = true.
Proof.
  intros Kk Ke. apply truthy_nonempty in Kk. apply truthy_nonempty in Ke.
  rewrite Kk, Ke. reflexivity.
Qed.

Lemma summarize_with_azure_client_raises (text_to_summarize : str)
      (e : PyException) (log : list effect) :
  truthy (strip text_to_summarize) = true ->
  get_language_client sidebar = (Raise e, log) ->
  summarize_with_azure sidebar text_to_summarize = (Raise e, log).
Proof.
  intros T G. unfold summarize_with_azure. rewrite T, G. reflexivity.
Qed.

Lemma lines_not_blank (paragraphs : list str) (line : str) :
  In line (lines_of_paragraphs paragraphs) -> truthy (strip line) = true.
Proof.
  intros H. apply lines_of_paragraphs_trimmed in H as [T _].
  apply trimmed_line_truthy, T.
Qed.

Lemma answers_text_not_blank (paragraphs : list str) (line : str) :
  In line (lines_of_paragraphs paragraphs) -> is_question line = false ->
  truthy (strip (snd (split_qa (lines_of_paragraphs paragraphs)))) = true.
Proof.
  intros H Q.
  destruct (truthy (strip (snd (split_qa (lines_of_paragraphs paragraphs)))))
    eqn:T; [reflexivity|].
  pose proof (proj1 (@answers_text_blank (lines_of_paragraphs paragraphs)
                       (@lines_not_blank paragraphs)) T) as A.
  rewrite (A line H) in Q. discriminate.
Qed.

(** X11: the script raises exactly when both credentials are there, a
    document was uploaded, and parsing it raises; the click plays no part,
    as the document is read before the button is drawn. *)
Theorem main_exception_iff (session : Session) (e : PyException) :
  fst (main sidebar session) = Raise e <->
  exists file,
    uploaded_file session = Some file
    /\ AZURE_KEY sidebar <> []
    /\ AZURE_ENDPOINT sidebar <> []
    /\ Document file = Raise e.
Proof.
  destruct (truthy (AZURE_KEY sidebar) && truthy (AZURE_ENDPOINT sidebar)) eqn:K.
  2: { rewrite (@main_missing_credentials sdk docx sidebar session K). split; [discriminate|].
       intros (file & _ & Kk & Ke & _).
       rewrite (credentials_truthy Kk Ke) in K. discriminate. }
  apply andb_true_iff in K as K'. destruct K' as [Kk Ke].
  apply truthy_nonempty in Kk. apply truthy_nonempty in Ke.
  destruct (uploaded_file session) as [file|] eqn:F.
  2: { rewrite (@main_missing_document sdk docx sidebar session K F). split; [discriminate|].
       intros (file & H & _). discriminate. }
  destruct (Document file) as [paragraphs|e'] eqn:D.
  2: { rewrite (@main_parse_error session file _ K F D). simpl. split.
       - intros H. injection H as <-. exists file. auto.
       - intros (file' & H & _ & _ & D'). injection H as <-.
         rewrite D in D'. injection D' as <-. reflexivity. }
  assert (R : fst (main sidebar session) = Ok tt).
  { destruct (analyze_clicked session) eqn:C.
    - destruct (lines_of_paragraphs paragraphs) as [|l ls] eqn:L.
      + rewrite (@main_no_line session file paragraphs K F D C L). reflexivity.
      + rewrite (@main_analysis session file paragraphs K F D C) by (rewrite L; discriminate).
        destruct (summarize_with_azure _ _) as [[summary_txt|e1] log]; reflexivity.
    - rewrite (@main_not_clicked sdk docx sidebar session file K F C), D. reflexivity. }
  rewrite R. split; [discriminate|].
  intros (file' & H & _ & _ & D'). injection H as <-.
  rewrite D in D'. discriminate.
Qed.

(** X12: for a document all of whose paragraphs are empty or whitespace,
    the click gives the notice that the file appears to be empty, and
    nothing is sent to the service. *)
Theorem main_empty_document (session : Session) (file : UploadedFile)
        (paragraphs : list str) :
  analysis_requested sidebar session file paragraphs ->
  (forall para, In para paragraphs -> forallb isspace para = true) ->
  main sidebar session =
  (Ok tt, [ReadDocument;
           Render (Button (lit "Analyze & Summarize Answers"));
           Render (Error (lit "The uploaded file appears to be empty."))]).
Proof.
  intros (Kk & Ke & F & D & C) B.
  apply (@main_no_line session file paragraphs (credentials_truthy Kk Ke) F D C).
  apply lines_of_paragraphs_nil, B.
Qed.

(** X13: whatever the script sends to the service is one document, the
    answers text of the uploaded document's lines; the questions are not
    sent. *)
Theorem main_sends_only_answers (session : Session) (documents : list str) :
  In (Sdk (CallBeginAbstractSummary documents)) (snd (main sidebar session)) ->
  exists file paragraphs,
    uploaded_file session = Some file
    /\ Document file = Ok paragraphs
    /\ documents = [snd (split_qa (lines_of_paragraphs paragraphs))].
Proof.
  intros H.
  destruct (truthy (AZURE_KEY sidebar) && truthy (AZURE_ENDPOINT sidebar)) eqn:K.
  2: { rewrite (@main_missing_credentials sdk docx sidebar session K) in H.
       destruct H as [H|[]]; discriminate. }
  destruct (uploaded_file session) as [file|] eqn:F.
  2: { rewrite (@main_missing_document sdk docx sidebar session K F) in H.
       destruct H as [H|[]]; discriminate. }
  destruct (Document file) as [paragraphs|e] eqn:D.
  2: { rewrite (@main_parse_error session file _ K F D) in H.
       destruct H as [H|[]]; discriminate. }
  exists file, paragraphs. split; [reflexivity | split; [exact D|]].
  destruct (analyze_clicked session) eqn:C.
  2: { rewrite (@main_not_clicked sdk docx sidebar session file K F C), D in H.
       destruct H as [H|[H|[]]]; discriminate. }
  destruct (lines_of_paragraphs paragraphs) as [|l ls] eqn:L.
  { rewrite (@main_no_line session file paragraphs K F D C L) in H.
    destruct H as [H|[H|[H|[]]]]; discriminate. }
  rewrite (@main_analysis session file paragraphs K F D C) in H by (rewrite L; discriminate).
  rewrite L in H.
  destruct (summarize_with_azure sidebar (snd (split_qa (l :: ls))))
    as [[summary_txt|e] log] eqn:S; simpl in H;
    destruct H as [H|[H|[H|H]]]; try discriminate;
    apply in_app_or in H as [H|H].
  - replace log with (snd (summarize_with_azure sidebar (snd (split_qa (l :: ls)))))
      in H by (rewrite S; reflexivity).
    apply summarize_with_azure_log_in in H as [_ [H|[H|[H|[r H]]]]];
      try discriminate. injection H as ->. reflexivity.
  - simpl in H. repeat (destruct H as [H|H]; [discriminate|]). destruct H.
  - replace log with (snd (summarize_with_azure sidebar (snd (split_qa (l :: ls)))))
      in H by (rewrite S; reflexivity).
    apply summarize_with_azure_log_in in H as [_ [H|[H|[H|[r H]]]]];
      try discriminate. injection H as ->. reflexivity.
  - simpl in H. repeat (destruct H as [H|H]; [discriminate|]). destruct H.
Qed.

Lemma no_sdk_in_display (questions_txt answers_txt summary_txt : str)
      (c : sdk_call) :
  ~ In (Sdk c) (results_display questions_txt answers_txt summary_txt).
Proof.
  simpl. intros H. repeat (destruct H as [H|H]; [discriminate|]). exact H.
Qed.

(** X14: in a run in which the analysis was asked for, the service is
    called exactly when some line of the document is an answer. *)
Theorem main_calls_service_iff_answer (session : Session)
        (file : UploadedFile) (paragraphs : list str) :
  analysis_requested sidebar session file paragraphs ->
  ((exists c, In (Sdk c) (snd (main sidebar session))) <->
   exists line,
     In line (lines_of_paragraphs paragraphs) /\ is_question line = false).
Proof.
  intros (Kk & Ke & F & D & C).
  pose proof (credentials_truthy Kk Ke) as K.
  destruct (lines_of_paragraphs paragraphs) as [|l ls] eqn:L.
  { rewrite (@main_no_line session file paragraphs K F D C L). split.
    - intros [c H]. simpl in H. destruct H as [H|[H|[H|[]]]]; discriminate.
    - intros (line & [] & _). }
  rewrite (@main_analysis session file paragraphs K F D C)
    by (rewrite L; discriminate).
  rewrite <- L.
  set (answers_txt := snd (split_qa (lines_of_paragraphs paragraphs))).
  split.
  - intros [c H].
    assert (S : In (Sdk c) (snd (summarize_with_azure sidebar answers_txt))).
    { destruct (summarize_with_azure sidebar answers_txt)
        as [[summary_txt|e] log]; simpl in H |- *;
        destruct H as [H|[H|[H|H]]]; try discriminate;
        apply in_app_or in H as [H|H]; try exact H.
      - exfalso. exact (@no_sdk_in_display _ _ _ _ H).
      - destruct H as [H|[]]. discriminate. }
    apply summarize_with_azure_log_in in S as [T _].
    destruct (forallb is_question (lines_of_paragraphs paragraphs)) eqn:Q.
    + exfalso. rewrite forallb_forall in Q.
      apply (@answers_text_blank (lines_of_paragraphs paragraphs)
               (@lines_not_blank paragraphs)) in Q.
      unfold answers_txt in T. rewrite Q in T. discriminate.
    + destruct (existsb (fun line => negb (is_question line))
                        (lines_of_paragraphs paragraphs)) eqn:X.
      * apply existsb_exists in X as (line & H1 & H2).
        exists line. split; [exact H1 | apply negb_true_iff, H2].
      * exfalso. rewrite <- Q in X. revert X. clear.
        induction (lines_of_paragraphs paragraphs) as [|x xs IH]; simpl;
          [discriminate|].
        destruct (is_question x); simpl; [exact IH | discriminate].
  - intros (line & H & Q).
    pose proof (@answers_text_not_blank paragraphs line H Q) as T.
    pose proof (@summarize_with_azure_first_call sdk sidebar _ T) as S.
    fold answers_txt in S.
    exists (CallAzureKeyCredential (AZURE_KEY sidebar)).
    destruct (summarize_with_azure sidebar answers_txt)
      as [[summary_txt|e] log]; simpl in S |- *;
      do 3 right; apply in_or_app; left; exact S.
Qed.

Lemma in_display_in_run (prologue log display : list effect) (eff : effect) :
  In eff display -> In eff (prologue ++ log ++ display).
Proof. intros H. apply in_or_app. right. apply in_or_app. right. exact H. Qed.

(** X15: whatever text the script shows in a pane it also offers for
    download under the pane's file name: the questions as questions.txt,
    the answers as answers.txt, and the summary it shows as
    summary_final.txt (the only other notice is the one asking for a
    document). *)
Theorem main_exports_match_panes (session : Session) :
  (forall label value,
     In (Render (TextArea label value)) (snd (main sidebar session)) ->
     (label = lit "Questions List"
      /\ In (Render (DownloadButton (lit "Download Questions (.txt)") value
                                    (lit "questions.txt")))
            (snd (main sidebar session)))
     \/ (label = lit "Answers List"
         /\ In (Render (DownloadButton (lit "Download Answers (.txt)") value
                                       (lit "answers.txt")))
               (snd (main sidebar session))))
  /\ (forall body,
        In (Render (Info body)) (snd (main sidebar session)) ->
        body = missing_document_msg
        \/ In (Render (DownloadButton (lit "Download Summary (.txt)") body
                                      (lit "summary_final.txt")))
              (snd (main sidebar session))).
Proof.
  destruct (truthy (AZURE_KEY sidebar) && truthy (AZURE_ENDPOINT sidebar)) eqn:K.
  2: { rewrite (@main_missing_credentials sdk docx sidebar session K).
       split; intros; simpl in *; intuition discriminate. }
  destruct (uploaded_file session) as [file|] eqn:F.
  2: { rewrite (@main_missing_document sdk docx sidebar session K F).
       split; [intros; simpl in *; intuition discriminate|].
       intros body [H|[]]. injection H as <-. left. reflexivity. }
  destruct (Document file) as [paragraphs|e] eqn:D.
  2: { rewrite (@main_parse_error session file _ K F D).
       split; intros; simpl in *; intuition discriminate. }
  destruct (analyze_clicked session) eqn:C.
  2: { rewrite (@main_not_clicked sdk docx sidebar session file K F C), D.
       split; intros; simpl in *; intuition discriminate. }
  destruct (lines_of_paragraphs paragraphs) as [|l ls] eqn:L.
  { rewrite (@main_no_line session file paragraphs K F D C L).
    split; intros; simpl in *; intuition discriminate. }
  rewrite (@main_analysis session file paragraphs K F D C)
    by (rewrite L; discriminate).
  set (questions_txt := fst (split_qa (lines_of_paragraphs paragraphs))).
  set (answers_txt := snd (split_qa (lines_of_paragraphs paragraphs))).
  pose proof (@summarize_with_azure_log_in sdk sidebar answers_txt) as S.
  destruct (summarize_with_azure sidebar answers_txt)
    as [[summary_txt|e] log]; cbn [snd] in S |- *.
  - split.
    + intros label value H. simpl in H.
      destruct H as [H|[H|[H|H]]]; try discriminate.
      apply in_app_or in H as [H|H].
      { apply S in H as [_ [H|[H|[H|[r H]]]]]; discriminate. }
      simpl in H.
      repeat (destruct H as [H|H]; [try discriminate|]);
        try (exfalso; exact H).
      * injection H as <- <-. left. split; [reflexivity|].
        apply in_display_in_run. simpl. auto 20.
      * injection H as <- <-. right. split; [reflexivity|].
        apply in_display_in_run. simpl. auto 20.
    + intros body H. simpl in H.
      destruct H as [H|[H|[H|H]]]; try discriminate.
      apply in_app_or in H as [H|H].
      { apply S in H as [_ [H|[H|[H|[r H]]]]]; discriminate. }
      simpl in H.
      repeat (destruct H as [H|H]; [try discriminate|]);
        try (exfalso; exact H).
      injection H as <-. right.
      apply in_display_in_run. simpl. auto 20.
  - split.
    + intros label value H. simpl in H.
      destruct H as [H|[H|[H|H]]]; try discriminate.
      apply in_app_or in H as [H|[H|[]]]; [|discriminate].
      apply S in H as [_ [H|[H|[H|[r H]]]]]; discriminate.
    + intros body H. simpl in H.
      destruct H as [H|[H|[H|H]]]; try discriminate.
      apply in_app_or in H as [H|[H|[]]]; [|discriminate].
      apply S in H as [_ [H|[H|[H|[r H]]]]]; discriminate.
Qed.

(** X16: in a run in which the analysis was asked for and some line is an
    answer, when building the client raises, the script shows
    "Critical Error: " followed by the exception's message and neither
    pane: the run ends with that notice right after the calls that built
    the client. *)
Theorem main_client_failure_hides_panes (session : Session)
        (file : UploadedFile) (paragraphs : list str) (line : str)
        (e : PyException) (log : list effect) :
  analysis_requested sidebar session file paragraphs ->
  In line (lines_of_paragraphs paragraphs) ->
  is_question line = false ->
  get_language_client sidebar = (Raise e, log) ->
  main sidebar session =
  (Ok tt,
   [ReadDocument;
    Render (Button (lit "Analyze & Summarize Answers"));
    Render (Spinner (lit "Azure AI is analyzing your conversation..."))]
   ++ log ++ [Render (Error (lit "Critical Error: " ++ exn_str e))]).
Proof.
  intros (Kk & Ke & F & D & C) H Q G.
  pose proof (credentials_truthy Kk Ke) as K.
  rewrite (@main_analysis session file paragraphs K F D C)
    by (intros N; rewrite N in H; destruct H).
  rewrite (@summarize_with_azure_client_raises _ e log
             (@answers_text_not_blank paragraphs line H Q) G).
  reflexivity.
Qed.

(** X17: in a run in which the analysis was asked for and the document
    has a line, once the client is built the script always shows both
    panes, with the questions text and the answers text, and a summary
    notice, whatever the service does. *)
Theorem main_panes_survive_service_failure (session : Session)
        (file : UploadedFile) (paragraphs : list str)
        (client : Client) (log : list effect) :
  analysis_requested sidebar session file paragraphs ->
  lines_of_paragraphs paragraphs <> [] ->
  get_language_client sidebar = (Ok client, log) ->
  fst (main sidebar session) = Ok tt
  /\ In (Render (TextArea (lit "Questions List")
                          (fst (split_qa (lines_of_paragraphs paragraphs)))))
        (snd (main sidebar session))
  /\ In (Render (TextArea (lit "Answers List")
                          (snd (split_qa (lines_of_paragraphs paragraphs)))))
        (snd (main sidebar session))
  /\ exists summary_txt,
       fst (summarize_with_azure sidebar
              (snd (split_qa (lines_of_paragraphs paragraphs)))) = Ok summary_txt
       /\ In (Render (Info summary_txt)) (snd (main sidebar session)).
Proof.
  intros (Kk & Ke & F & D & C) L G.
  pose proof (credentials_truthy Kk Ke) as K.
  rewrite (@main_analysis session file paragraphs K F D C L).
  destruct (@summarize_with_azure_returns_with_client sdk sidebar
              (snd (split_qa (lines_of_paragraphs paragraphs))) client log G)
    as (summary_txt & slog & ->).
  cbn [fst snd]. split; [reflexivity|].
  assert (I : forall eff,
             In eff (results_display
                       (fst (split_qa (lines_of_paragraphs paragraphs)))
                       (snd (split_qa (lines_of_paragraphs paragraphs)))
                       summary_txt) ->
             In eff (analysis_prologue ++ slog ++
                     results_display
                       (fst (split_qa (lines_of_paragraphs paragraphs)))
                       (snd (split_qa (lines_of_paragraphs paragraphs)))
                       summary_txt)).
  { intros eff H. apply in_or_app. right. apply in_or_app. right. exact H. }
  split; [apply I; simpl; auto 20|].
  split; [apply I; simpl; auto 20|].
  exists summary_txt. split; [reflexivity | apply I; simpl; auto 20].
Qed.

End ScriptRuns.

(** ** The theorems above at concrete runs *)

Section Runs.

Lemma read_docx_lines_trimmed_witness :
  exists lines,
    @read_docx plain_docx demo_document = (Ok lines, [ReadDocument])
    /\ forall line, In line lines ->
                    trimmed_line line
                    /\ strip line = line
                    /\ exists para, In para demo_document /\ line = strip para.
Proof.
  apply (@read_docx_lines_trimmed plain_docx demo_document demo_document).
  reflexivity.
Defined.



Lemma read_docx_drops_blank_paragraphs_witness :
  exists lines,
    @read_docx plain_docx demo_document = (Ok lines, [ReadDocument])
    /\ length lines =
       length (filter (fun para => negb (forallb isspace para)) demo_document)
    /\ length lines <= length demo_document
    /\ (lines = [] <->
        forall para, In para demo_document -> forallb isspace para = true).
Proof.
  apply (@read_docx_drops_blank_paragraphs plain_docx demo_document demo_document).
  reflexivity.
Defined.

Lemma summarize_with_azure_poll_failure_witness :
  @summarize_with_azure (canned_sdk (Ok tt) (Raise timeout_error))
                        demo_sidebar (lit "It works fine.") =
  (Ok (lit "Logic Error: " ++ exn_str timeout_error),
   [Sdk (CallAzureKeyCredential (AZURE_KEY demo_sidebar));
    Sdk (CallTextAnalyticsClient (AZURE_ENDPOINT demo_sidebar));
    Sdk (CallBeginAbstractSummary [lit "It works fine."]);
    Sdk (CallPollerResult (Raise timeout_error))]).
Proof.
  apply (@summarize_with_azure_poll_failure
           (canned_sdk (Ok tt) (Raise timeout_error)) demo_sidebar
           (lit "It works fine.") (AZURE_KEY demo_sidebar) tt tt timeout_error);
    reflexivity.
Defined.

Lemma summarize_with_azure_iteration_failure_witness :
  @summarize_with_azure
     (canned_sdk (Ok tt) (Ok (paged_app two_fragments (PagedRaise timeout_error))))
     demo_sidebar (lit "It works fine.") =
  (Ok (lit "Logic Error: " ++ exn_str timeout_error),
   [Sdk (CallAzureKeyCredential (AZURE_KEY demo_sidebar));
    Sdk (CallTextAnalyticsClient (AZURE_ENDPOINT demo_sidebar));
    Sdk (CallBeginAbstractSummary [lit "It works fine."]);
    Sdk (CallPollerResult (Ok (paged_app two_fragments (PagedRaise timeout_error))))]).
Proof.
  apply (@summarize_with_azure_iteration_failure
           (canned_sdk (Ok tt) (Ok (paged_app two_fragments (PagedRaise timeout_error))))
           demo_sidebar (lit "It works fine.") (AZURE_KEY demo_sidebar) tt tt
           two_fragments timeout_error);
    reflexivity.
Defined.

Lemma summarize_with_azure_begin_failure_witness :
  @summarize_with_azure (refusing_sdk timeout_error) demo_sidebar
                        (lit "It works fine.") =
  (Ok (lit "Logic Error: " ++ exn_str timeout_error),
   client_calls demo_sidebar
   ++ [Sdk (CallBeginAbstractSummary [lit "It works fine."])]).
Proof.
  apply (@summarize_with_azure_begin_failure
           (refusing_sdk timeout_error) demo_sidebar (lit "It works fine.")
           tt (client_calls demo_sidebar) timeout_error);
    reflexivity.
Defined.

Lemma clean_document_not_blank :
  forall line, In line clean_document -> truthy (strip line) = true.
Proof. intros line [<-|[<-|[<-|[]]]]; reflexivity. Defined.

Lemma split_qa_answers_blank_witness :
  truthy (strip (snd (split_qa clean_document))) = false <->
  forall line, In line clean_document -> is_question line = true.
Proof.
  apply (@split_qa_answers_blank clean_document).
  exact clean_document_not_blank.
Defined.

Lemma analysis_requested_demo (paragraphs : list str) :
  @analysis_requested plain_docx demo_sidebar (session_of paragraphs true)
                      paragraphs paragraphs.
Proof. repeat split; discriminate. Defined.

Lemma main_empty_document_witness :
  @main (canned_sdk (Ok tt) (Ok rate_limited)) plain_docx demo_sidebar
        (session_of blank_document true) =
  (Ok tt, [ReadDocument;
           Render (Button (lit "Analyze & Summarize Answers"));
           Render (Error (lit "The uploaded file appears to be empty."))]).
Proof.
  apply (@main_empty_document (canned_sdk (Ok tt) (Ok rate_limited)) plain_docx
           demo_sidebar (session_of blank_document true)
           blank_document blank_document).
  - exact (analysis_requested_demo blank_document).
  - intros para [<-|[<-|[<-|[]]]]; reflexivity.
Defined.

Lemma main_sends_only_answers_witness :
  exists file paragraphs,
    uploaded_file (session_of clean_document true) = Some file
    /\ @Document plain_docx file = Ok paragraphs
    /\ [lit "It works fine."] = [snd (split_qa (lines_of_paragraphs paragraphs))].
Proof.
  apply (@main_sends_only_answers (canned_sdk (Ok tt) (Ok rate_limited))
           plain_docx demo_sidebar (session_of clean_document true)
           [lit "It works fine."]).
  cbv. auto 10.
Defined.

Lemma main_calls_service_iff_answer_witness :
  (exists c, In (Sdk c)
               (snd (@main (canned_sdk (Ok tt) (Ok rate_limited)) plain_docx
                           demo_sidebar (session_of questions_only_document true))))
  <->
  exists line,
    In line (lines_of_paragraphs questions_only_document)
    /\ is_question line = false.
Proof.
  apply (@main_calls_service_iff_answer (canned_sdk (Ok tt) (Ok rate_limited))
           plain_docx demo_sidebar (session_of questions_only_document true)
           questions_only_document questions_only_document).
  exact (analysis_requested_demo questions_only_document).
Defined.

Lemma main_client_failure_hides_panes_witness :
  @main (canned_sdk (Raise client_failure) (Ok PagedEnd)) plain_docx
        demo_sidebar (session_of clean_document true) =
  (Ok tt,
   [ReadDocument;
    Render (Button (lit "Analyze & Summarize Answers"));
    Render (Spinner (lit "Azure AI is analyzing your conversation..."))]
   ++ client_calls demo_sidebar
   ++ [Render (Error (lit "Critical Error: " ++ exn_str client_failure))]).
Proof.
  apply (@main_client_failure_hides_panes
           (canned_sdk (Raise client_failure) (Ok PagedEnd)) plain_docx
           demo_sidebar (session_of clean_document true)
           clean_document clean_document (lit "It works fine.")
           client_failure (client_calls demo_sidebar)).
  - exact (analysis_requested_demo clean_document).
  - simpl. auto.
  - reflexivity.
  - reflexivity.
Defined.

Lemma main_panes_survive_service_failure_witness :
  fst (@main (canned_sdk (Ok tt) (Raise timeout_error)) plain_docx
             demo_sidebar (session_of clean_document true)) = Ok tt
  /\ In (Render (TextArea (lit "Questions List")
                          (fst (split_qa (lines_of_paragraphs clean_document)))))
        (snd (@main (canned_sdk (Ok tt) (Raise timeout_error)) plain_docx
                    demo_sidebar (session_of clean_document true)))
  /\ In (Render (TextArea (lit "Answers List")
                          (snd (split_qa (lines_of_paragraphs clean_document)))))
        (snd (@main (canned_sdk (Ok tt) (Raise timeout_error)) plain_docx
                    demo_sidebar (session_of clean_document true)))
  /\ exists summary_txt,
       fst (@summarize_with_azure (canned_sdk (Ok tt) (Raise timeout_error))
              demo_sidebar
              (snd (split_qa (lines_of_paragraphs clean_document)))) = Ok summary_txt
       /\ In (Render (Info summary_txt))
             (snd (@main (canned_sdk (Ok tt) (Raise timeout_error)) plain_docx
                         demo_sidebar (session_of clean_document true))).
Proof.
  apply (@main_panes_survive_service_failure
           (canned_sdk (Ok tt) (Raise timeout_error)) plain_docx
           demo_sidebar (session_of clean_document true)
           clean_document clean_document tt (client_calls demo_sidebar)).
  - exact (analysis_requested_demo clean_document).
  - discriminate.
  - reflexivity.
Defined.

End Runs.

(** ** The specification's examples, run on the code *)

Section Examples.

Example endswith_question_mark :
  endswith (lit "Is this correct?") (lit "?") = true.
Proof. reflexivity. Qed.

Example strip_both_ends : strip (lit "  It works fine. ") = lit "It works fine.".
Proof. reflexivity. Qed.

Example split_fields :
  split newline (lit "a" ++ [newline] ++ lit "bc" ++ [newline]) =
  [lit "a"; lit "bc"; []].
Proof. reflexivity. Qed.

Example split_qa_spec_lines :
  split_qa [lit "Is this correct?"; lit "User A: hello";
            lit "Question: what time?"; lit "It works fine."] =
  (lit "Is this correct?" ++ [newline] ++ lit "User A: hello" ++ [newline]
     ++ lit "Question: what time?",
   lit "It works fine.").
Proof. reflexivity. Qed.

(** The markers are matched with their case, and [?] only at the end. *)
Example split_qa_case_and_position :
  split_qa [lit "user a: hello"; lit "QUESTION: what"; lit "Why? No idea."] =
  ([], lit "user a: hello" ++ [newline] ++ lit "QUESTION: what" ++ [newline]
         ++ lit "Why? No idea.").
Proof. reflexivity. Qed.

Example read_docx_demo :
  @read_docx plain_docx demo_document =
  (Ok [lit "Is this correct?"; lit "It works fine."; lit "User A: hello"],
   [ReadDocument]).
Proof. reflexivity. Qed.

(** A document error becomes the summary shown under the two panes. *)
Example main_rate_limited :
  In (Render (Info (lit "Azure Service Error: rate limited")))
     (snd (@main (canned_sdk (Ok tt) (Ok rate_limited)) plain_docx
                 demo_sidebar demo_session)).
Proof. vm_compute. tauto. Qed.

(** When the client cannot be built, the exception reaches the script's
    own handler, and neither pane is drawn. *)
Example main_client_failure :
  snd (@main (canned_sdk (Raise client_failure) (Ok PagedEnd)) plain_docx
             demo_sidebar demo_session) =
  [ReadDocument;
   Render (Button (lit "Analyze & Summarize Answers"));
   Render (Spinner spinner_msg);
   Sdk (CallAzureKeyCredential (AZURE_KEY demo_sidebar));
   Sdk (CallTextAnalyticsClient (AZURE_ENDPOINT demo_sidebar));
   Render (Error (lit "Critical Error: " ++ exn_str client_failure))].
Proof. reflexivity. Qed.

End Examples.
